(** * Lichess game scraper: the two Cloud Function handlers and their
      in-page extraction scripts

    The development embeds [exports.fetchLichessGame] (basic variant) and
    [exports.fetchLichessGameAdvanced] (advanced variant): the function each
    handler evaluates inside the rendered page, and the handler's own
    lifecycle around the headless browser.

    Conventions of the embedding.
    - A JavaScript string is a [string]; each character stands for one
      UTF-16 code unit below 256, so [String.length] is the [.length] of the
      source.
    - A JavaScript number is [NaN] or an integer ([Num z]); the rounding of
      integers beyond 2^53 and the sign of zero are left out.
    - Everything the scripts ask of their surroundings (DOM queries, global
      properties, storage, the JSON built-ins, the browser automation calls)
      is a field of an environment record whose answer is either a value or
      a thrown error.
    - The object the extraction script returns reaches the handler as the
      script built it: the by-value transfer made by [page.evaluate] is
      taken to be faithful.
    - Sending a response ([res.status(..).json(..)]) does not throw.
    - Console output and the two event listeners the advanced handler
      registers ([request] and [response]) have no effect on the response
      and are left out. *)

From Stdlib Require Import ZArith String Ascii List Bool Lia DecimalString DecimalPos Decimal.
From stdpp Require Import gmap strings list.

Open Scope string_scope.
Set Warnings "-register-all".
Set Warnings "-automation".

(** ** Thrown values and fallible calls *)

Record Error := { message : string; stack : string }.

Inductive result (A : Type) : Type :=
| Ok (a : A)
| Throw (e : Error).
Arguments Ok {A} a.
Arguments Throw {A} e.

#[export] Instance result_ret : MRet result := fun A a => Ok a.
#[export] Instance result_bind : MBind result := fun A B f m =>
  match m with
  | Ok a => f a
  | Throw e => Throw e
  end.

#[export] Instance result_fmap : FMap result := fun A B f m =>
  match m with
  | Ok a => Ok (f a)
  | Throw e => Throw e
  end.

(** [try { body } catch (e) { handler e }] for a body without side effects
    before the throw. *)
Definition try_catch {A} (body : result A) (handler : Error -> A) : A :=
  match body with
  | Ok a => a
  | Throw e => handler e
  end.

Definition throws {A} (r : result A) : bool :=
  match r with
  | Ok _ => false
  | Throw _ => true
  end.

(** ** String primitives of the runtime *)

Module JsString.

Definition between (lo hi n : nat) : bool := Nat.leb lo n && Nat.leb n hi.

(** WhiteSpace and LineTerminator code units below 256. *)
Definition isWhiteSpace (c : ascii) : bool :=
  let n := nat_of_ascii c in
  between 9 13 n || Nat.eqb n 32 || Nat.eqb n 160.

Fixpoint trimStart (s : string) : string :=
  match s with
  | String c s' => if isWhiteSpace c then trimStart s' else s
  | EmptyString => EmptyString
  end.

Fixpoint trimEnd (s : string) : string :=
  match s with
  | EmptyString => EmptyString
  | String c s' =>
      match trimEnd s' with
      | EmptyString => if isWhiteSpace c then EmptyString else String c EmptyString
      | t => String c t
      end
  end.

Definition trim (s : string) : string := trimEnd (trimStart s).

Definition lowerChar (c : ascii) : ascii :=
  let n := nat_of_ascii c in
  if between 65 90 n || (between 192 222 n && negb (Nat.eqb n 215))
  then ascii_of_nat (n + 32) else c.

Fixpoint toLowerCase (s : string) : string :=
  match s with
  | String c s' => String (lowerChar c) (toLowerCase s')
  | EmptyString => EmptyString
  end.

Definition startsWith (s search : string) : bool := String.prefix search s.

Fixpoint includes (s search : string) : bool :=
  String.prefix search s ||
  match s with
  | String _ s' => includes s' search
  | EmptyString => false
  end.

(** [s.substring(start, end)]: both indices are clamped to the length and
    swapped when out of order. *)
Definition substring (s : string) (start end_ : nat) : string :=
  let len := String.length s in
  let a := Nat.min start len in
  let b := Nat.min end_ len in
  String.substring (Nat.min a b) (Nat.max a b - Nat.min a b) s.

(** [s.replace(/[...]/g, '')] for a character class given as a test. *)
Fixpoint removeAll (class : ascii -> bool) (s : string) : string :=
  match s with
  | String c s' => if class c then removeAll class s' else String c (removeAll class s')
  | EmptyString => EmptyString
  end.

Fixpoint join (sep : string) (l : list string) : string :=
  match l with
  | [] => EmptyString
  | [x] => x
  | x :: rest => x ++ sep ++ join sep rest
  end.

Definition isEmpty (s : string) : bool :=
  match s with
  | EmptyString => true
  | String _ _ => false
  end.

Definition dquote : string := String (ascii_of_nat 34) EmptyString.

End JsString.

(** ** Numbers and [parseInt] *)

Inductive number :=
| NaN
| Num (z : Z).

Module JsNumber.

Definition digitValue (c : ascii) : option Z :=
  let n := nat_of_ascii c in
  if JsString.between 48 57 n then Some (Z.of_nat (n - 48))
  else if JsString.between 97 122 n then Some (Z.of_nat (n - 87))
  else if JsString.between 65 90 n then Some (Z.of_nat (n - 55))
  else None.

(** Value of the longest prefix of radix-[radix] digits; [acc] is [None]
    until a first digit has been read. *)
Fixpoint digits (radix : Z) (s : string) (acc : option Z) : option Z :=
  match s with
  | String c s' =>
      match digitValue c with
      | Some d =>
          if (d <? radix)%Z
          then digits radix s' (Some (radix * default 0%Z acc + d)%Z)
          else acc
      | None => acc
      end
  | EmptyString => acc
  end.

Definition stripSign (s : string) : Z * string :=
  match s with
  | String "-" rest => ((-1)%Z, rest)
  | String "+" rest => (1%Z, rest)
  | _ => (1%Z, s)
  end.

Definition stripPrefix (s : string) : Z * string :=
  match s with
  | String "0" (String "x" rest) => (16%Z, rest)
  | String "0" (String "X" rest) => (16%Z, rest)
  | _ => (10%Z, s)
  end.

(** [parseInt(string)] with no radix argument. *)
Definition parseInt (input : string) : number :=
  let '(sign, s) := stripSign (JsString.trimStart input) in
  let '(radix, s) := stripPrefix s in
  match digits radix s None with
  | None => NaN
  | Some n => Num (sign * n)
  end.

End JsNumber.

(** ** JSON data *)

Inductive json :=
| JNull
| JBool (b : bool)
| JNumber (z : Z)
| JString (s : string)
| JArray (items : list json)
| JObject (fields : list (string * json)).

Module Json.

Fixpoint assoc {A} (k : string) (l : list (string * A)) : option A :=
  match l with
  | [] => None
  | (k', v) :: rest => if String.eqb k k' then Some v else assoc k rest
  end.

(** [o?.k]: [None] is [undefined]. A receiver that is [undefined], [null]
    or not an object literal has no such member. *)
Definition member (o : option json) (k : string) : option json :=
  match o with
  | Some (JObject fields) => assoc k fields
  | _ => None
  end.

Definition truthy (v : option json) : bool :=
  match v with
  | None => false
  | Some JNull => false
  | Some (JBool b) => b
  | Some (JNumber z) => negb (z =? 0)%Z
  | Some (JString s) => negb (JsString.isEmpty s)
  | Some (JArray _) => true
  | Some (JObject _) => true
  end.

(** [a || b] *)
Definition or_else (a b : option json) : option json :=
  if truthy a then a else b.

(** ToString, as applied by template literals and by [parseInt]. Numbers
    are printed in plain decimal, as the runtime does below 10^21. *)
Fixpoint toString (j : json) : string :=
  match j with
  | JNull => "null"
  | JBool true => "true"
  | JBool false => "false"
  | JNumber z => NilZero.string_of_int (Z.to_int z)
  | JString s => s
  | JArray items =>
      JsString.join ","
        (List.map (fun x => match x with
                            | JNull => EmptyString
                            | _ => toString x
                            end) items)
  | JObject _ => "[object Object]"
  end.

Definition toStringOpt (v : option json) : string :=
  match v with
  | None => "undefined"
  | Some j => toString j
  end.

End Json.

(** ** The rendered page, as the in-page scripts see it *)

(** Values found on the [window] object. [VObject] is a host object known by
    reference only; [VFunction] carries what [value.toString()] does. *)
Inductive jsval :=
| VUndefined
| VNull
| VBoolean (b : bool)
| VNumber (n : number)
| VString (s : string)
| VBigInt (z : Z)
| VSymbol (description : string)
| VFunction (source : result string)
| VObject (ref : nat).

Definition typeof (v : jsval) : string :=
  match v with
  | VUndefined => "undefined"
  | VNull => "object"
  | VBoolean _ => "boolean"
  | VNumber _ => "number"
  | VString _ => "string"
  | VBigInt _ => "bigint"
  | VSymbol _ => "symbol"
  | VFunction _ => "function"
  | VObject _ => "object"
  end.

Module Dom.

Record Attr := { name : string; value : string }.

Record Element := {
  tagName : string;
  id : string;
  className : string;
  attributes : list Attr;
  textContent : string
}.

(** [el.getAttribute(n)]: the value of the first attribute named [n], or
    [null]. *)
Definition getAttribute (el : Element) (n : string) : option string :=
  value <$> List.find (fun a => String.eqb (name a) n) (attributes el).

End Dom.

(** The page context: one field per ambient object or built-in the scripts
    call. *)
Record Page := {
  document_getElementById : string -> result (option Dom.Element);
  document_querySelectorAll : string -> result (list Dom.Element);
  document_title : result string;
  window_location_href : result string;
  Object_keys_window : result (list string);
  window_get : string -> result jsval;
  Object_keys_localStorage : result (list string);
  localStorage_getItem : string -> result (option string);
  JSON_parse : string -> result json;
  JSON_stringify : jsval -> result (option string)
}.

(** [Array.from(list).map(f)], present only when [list.length > 0]. *)
Definition mapIfAny {A B} (f : A -> B) (l : list A) : option (list B) :=
  if Nat.ltb 0 (length l) then Some (List.map f l) else None.

(** The structured-payload probe, shared by both variants:
    [if (pageInitScript) try { JSON.parse(textContent.trim()) } catch {}],
    starting from [pageInitData: null]. *)
Definition parsePageInit (p : Page) (pageInitScript : option Dom.Element) : json :=
  match pageInitScript with
  | Some el =>
      try_catch (JSON_parse p (JsString.trim (Dom.textContent el))) (fun _ => JNull)
  | None => JNull
  end.

Definition copyAttributes (el : Dom.Element) : list Dom.Attr :=
  List.map (fun attr => {| Dom.name := Dom.name attr; Dom.value := Dom.value attr |})
           (Dom.attributes el).

(** ** Basic variant: the function passed to [page.evaluate] *)

Module Basic.

Record AnalysisEntry := { entry_analysis : option string; entry_text : string }.

Record ExtensionElement := {
  tagName : string;
  className : string;
  attributes : list Dom.Attr;
  textContent : string
}.

Record AdditionalData := {
  title : string;
  url : string;
  moves : option (list string);
  analysis : option (list AnalysisEntry);
  extensionElements : option (list ExtensionElement)
}.

(** [htmlLength] is not a key of the object literal the script builds; it
    is [None] until something assigns it. *)
Record GameData := {
  pageInitData : json;
  extensionData : option (gmap string jsval);
  additionalData : AdditionalData;
  htmlLength : option nat
}.

Definition interesting (key : string) : bool :=
  JsString.includes key "lichess" ||
  JsString.includes key "extension" ||
  JsString.includes key "chess" ||
  JsString.startsWith key "__".

Definition recordable (value : jsval) : bool :=
  String.eqb (typeof value) "object" ||
  String.eqb (typeof value) "string" ||
  String.eqb (typeof value) "number".

(** Body of [windowKeys.forEach]. *)
Definition recordValue (p : Page) (extensionData : gmap string jsval) (key : string)
  : gmap string jsval :=
  try_catch
    (value ← window_get p key;
     mret (if recordable value then <[key := value]> extensionData else extensionData))
    (fun _ => extensionData).

Definition scanWindow (p : Page) (windowKeys : list string) : option (gmap string jsval) :=
  if Nat.ltb 0 (length windowKeys)
  then Some (foldl (recordValue p) ∅ windowKeys)
  else None.

Definition analysisEntry (el : Dom.Element) : AnalysisEntry :=
  {| entry_analysis := Dom.getAttribute el "data-analysis";
     entry_text := Dom.textContent el |}.

Definition extensionElement (el : Dom.Element) : ExtensionElement :=
  {| tagName := Dom.tagName el;
     className := Dom.className el;
     attributes := copyAttributes el;
     textContent := JsString.substring (Dom.textContent el) 0 500 |}.

Definition customSelector : string :=
  "[data-lichess-tools], [data-extension], [class*="
    ++ JsString.dquote ++ "extension" ++ JsString.dquote ++ "]".

Definition evaluate (p : Page) : result GameData :=
  pageInitScript ← document_getElementById p "page-init-data";
  let pageInitData := parsePageInit p pageInitScript in
  keys ← Object_keys_window p;
  let windowKeys := List.filter interesting keys in
  let extensionData := scanWindow p windowKeys in
  title ← document_title p;
  url ← window_location_href p;
  moves ← document_querySelectorAll p ".moves move";
  analysisElements ← document_querySelectorAll p "[data-analysis]";
  customDataElements ← document_querySelectorAll p customSelector;
  mret {| pageInitData := pageInitData;
          extensionData := extensionData;
          additionalData :=
            {| title := title;
               url := url;
               moves := mapIfAny Dom.textContent moves;
               analysis := mapIfAny analysisEntry analysisElements;
               extensionElements := mapIfAny extensionElement customDataElements |};
          htmlLength := None |}.

End Basic.

(** ** Advanced variant: the function passed to [page.evaluate] *)

Module Advanced.

(** What [data.extensionData[key]] can hold: the copy of an object made by
    [JSON.parse(JSON.stringify(value))], or a value stored as it is. *)
Inductive entry :=
| Copied (j : json)
| Plain (v : jsval).

Record PlayerEntry := { player_text : string; player_classes : string }.

Record EvalEntry := { eval : option string; eval_text : string }.

Record ElementEntry := {
  tag : string;
  id : string;
  classes : string;
  attributes : list Dom.Attr;
  text : string
}.

(** [data.dom]: the five fixed keys, and the keys the selector scan adds
    ([bySelector]; none of them is one of the fixed five, see
    [selector_keys_fresh]). *)
Record DomData := {
  title : string;
  url : string;
  moves : option (list string);
  players : option (list PlayerEntry);
  evaluations : option (list EvalEntry);
  bySelector : gmap string (list ElementEntry)
}.

Record ComputedData := {
  moveCount : option nat;
  jsonScripts : option (list json)
}.

Record GameData := {
  pageInitData : json;
  extensionData : gmap string entry;
  dom : DomData;
  localStorage : gmap string (option string);
  cookies : gmap string json;
  computedData : ComputedData
}.

Definition interesting (key : string) : bool :=
  let keyLower := JsString.toLowerCase key in
  JsString.includes keyLower "lichess" ||
  JsString.includes keyLower "extension" ||
  JsString.includes keyLower "chess" ||
  JsString.includes keyLower "tool" ||
  JsString.includes keyLower "plugin" ||
  JsString.startsWith key "__" ||
  JsString.startsWith key "_".

Definition errorMarker : string := "[Error accessing property]".

Definition isNullish (value : jsval) : bool :=
  match value with
  | VNull | VUndefined => true
  | _ => false
  end.

(** [value.toString()] for a function. *)
Definition functionSource (value : jsval) : result string :=
  match value with
  | VFunction source => source
  | _ => Ok EmptyString
  end.

(** Body of [interestingKeys.forEach]. *)
Definition recordValue (p : Page) (extensionData : gmap string entry) (key : string)
  : gmap string entry :=
  try_catch
    (value ← window_get p key;
     if negb (isNullish value) then
       if String.eqb (typeof value) "object" then
         text ← JSON_stringify p value;
         copy ← JSON_parse p (default "undefined" text);
         mret (<[key := Copied copy]> extensionData)
       else if String.eqb (typeof value) "function" then
         source ← functionSource value;
         mret (<[key := Plain (VString (JsString.substring source 0 200))]> extensionData)
       else
         mret (<[key := Plain value]> extensionData)
     else mret extensionData)
    (fun _ => <[key := Plain (VString errorMarker)]> extensionData).

Definition storageMatches (key : string) : bool :=
  JsString.includes (JsString.toLowerCase key) "lichess" ||
  JsString.includes (JsString.toLowerCase key) "chess" ||
  JsString.includes (JsString.toLowerCase key) "extension".

(** Body of [Object.keys(localStorage).forEach]. *)
Definition recordItem (p : Page) (storage : gmap string (option string)) (key : string)
  : gmap string (option string) :=
  try_catch
    (value ← localStorage_getItem p key;
     mret (if storageMatches key then <[key := value]> storage else storage))
    (fun _ => storage).

Definition scanStorage (p : Page) : gmap string (option string) :=
  try_catch
    (keys ← Object_keys_localStorage p;
     mret (foldl (recordItem p) ∅ keys))
    (fun _ => ∅).

Definition extensionSelectors : list string :=
  [ "[data-lichess-tools]";
    "[data-extension]";
    "[class*=" ++ JsString.dquote ++ "extension" ++ JsString.dquote ++ "]";
    "[class*=" ++ JsString.dquote ++ "tool" ++ JsString.dquote ++ "]";
    "[class*=" ++ JsString.dquote ++ "enhanced" ++ JsString.dquote ++ "]";
    "[id*=" ++ JsString.dquote ++ "extension" ++ JsString.dquote ++ "]";
    "[id*=" ++ JsString.dquote ++ "tool" ++ JsString.dquote ++ "]" ].

(** The character class of the key-building regular expression: the two
    square brackets, the double and the single quote, and the star. *)
Definition bracketQuoteStar (c : ascii) : bool :=
  let n := nat_of_ascii c in
  Nat.eqb n 91 || Nat.eqb n 93 || Nat.eqb n 34 || Nat.eqb n 39 || Nat.eqb n 42.

Definition selectorKey (selector : string) : string :=
  JsString.removeAll bracketQuoteStar selector.

Definition elementEntry (el : Dom.Element) : ElementEntry :=
  {| tag := Dom.tagName el;
     id := Dom.id el;
     classes := Dom.className el;
     attributes := copyAttributes el;
     text := JsString.substring (Dom.textContent el) 0 300 |}.

(** Body of [extensionSelectors.forEach]. *)
Definition recordSelector (p : Page) (found : gmap string (list ElementEntry))
    (selector : string) : gmap string (list ElementEntry) :=
  try_catch
    (elements ← document_querySelectorAll p selector;
     mret (if Nat.ltb 0 (length elements)
           then <[selectorKey selector := List.map elementEntry elements]> found
           else found))
    (fun _ => found).

Definition playerEntry (el : Dom.Element) : PlayerEntry :=
  {| player_text := JsString.trim (Dom.textContent el);
     player_classes := Dom.className el |}.

Definition evalEntry (el : Dom.Element) : EvalEntry :=
  {| eval := Dom.getAttribute el "data-eval";
     eval_text := JsString.trim (Dom.textContent el) |}.

(** Body of [scripts.forEach]. *)
Definition collectJson (p : Page) (jsonScripts : list json) (script : Dom.Element)
  : list json :=
  let content := JsString.trim (Dom.textContent script) in
  if JsString.startsWith content "{" || JsString.startsWith content "[" then
    try_catch
      (parsed ← JSON_parse p content; mret (jsonScripts ++ [parsed])%list)
      (fun _ => jsonScripts)
  else jsonScripts.

Definition evaluate (p : Page) : result GameData :=
  pageInitScript ← document_getElementById p "page-init-data";
  let pageInitData := parsePageInit p pageInitScript in
  windowKeys ← Object_keys_window p;
  let interestingKeys := List.filter interesting windowKeys in
  let extensionData := foldl (recordValue p) ∅ interestingKeys in
  let localStorage := scanStorage p in
  title ← document_title p;
  url ← window_location_href p;
  moveElements ← document_querySelectorAll p ".moves move, move";
  playerElements ← document_querySelectorAll p ".ruser, .player";
  evalElements ← document_querySelectorAll p "[data-eval], .eval, .evaluation";
  let bySelector := foldl (recordSelector p) ∅ extensionSelectors in
  rmoves ← document_querySelectorAll p ".rmoves move";
  scripts ← document_querySelectorAll p "script:not([src])";
  let jsonScripts := foldl (collectJson p) [] scripts in
  mret {| pageInitData := pageInitData;
          extensionData := extensionData;
          dom :=
            {| title := title;
               url := url;
               moves := mapIfAny (fun m => JsString.trim (Dom.textContent m)) moveElements;
               players := mapIfAny playerEntry playerElements;
               evaluations := mapIfAny evalEntry evalElements;
               bySelector := bySelector |};
          localStorage := localStorage;
          cookies := ∅;
          computedData :=
            {| moveCount := if Nat.ltb 0 (length rmoves) then Some (length rmoves) else None;
               jsonScripts := if Nat.ltb 0 (length jsonScripts) then Some jsonScripts else None |} |}.

End Advanced.

(** The queries the advanced script makes outside the selector scan. *)
Definition fixedQueries : list string :=
  [".moves move, move"; ".ruser, .player"; "[data-eval], .eval, .evaluation";
   ".rmoves move"; "script:not([src])"].

(** ** Variations of a page

    Each of these is the page [p] with one thing the scripts look for
    changed or taken away; they serve to say what a fragment does not
    depend on. *)

(** The payload script element is [pageInitScript] (or is not there). *)
Definition withPageInitScript (pageInitScript : option Dom.Element) (p : Page) : Page :=
  {| document_getElementById := fun i =>
       if String.eqb i "page-init-data" then Ok pageInitScript
       else document_getElementById p i;
     document_querySelectorAll := document_querySelectorAll p;
     document_title := document_title p;
     window_location_href := window_location_href p;
     Object_keys_window := Object_keys_window p;
     window_get := window_get p;
     Object_keys_localStorage := Object_keys_localStorage p;
     localStorage_getItem := localStorage_getItem p;
     JSON_parse := JSON_parse p;
     JSON_stringify := JSON_stringify p |}.

Definition differsFrom (key : string) (k : string) : bool := negb (String.eqb k key).

(** The global object has no property [key]. *)
Definition withoutWindowKey (key : string) (p : Page) : Page :=
  {| document_getElementById := document_getElementById p;
     document_querySelectorAll := document_querySelectorAll p;
     document_title := document_title p;
     window_location_href := window_location_href p;
     Object_keys_window := List.filter (differsFrom key) <$> Object_keys_window p;
     window_get := window_get p;
     Object_keys_localStorage := Object_keys_localStorage p;
     localStorage_getItem := localStorage_getItem p;
     JSON_parse := JSON_parse p;
     JSON_stringify := JSON_stringify p |}.



(** The query [selector] has the given outcome. *)
Definition withSelector (selector : string) (outcome : result (list Dom.Element)) (p : Page)
  : Page :=
  {| document_getElementById := document_getElementById p;
     document_querySelectorAll := fun s =>
       if String.eqb s selector then outcome else document_querySelectorAll p s;
     document_title := document_title p;
     window_location_href := window_location_href p;
     Object_keys_window := Object_keys_window p;
     window_get := window_get p;
     Object_keys_localStorage := Object_keys_localStorage p;
     localStorage_getItem := localStorage_getItem p;
     JSON_parse := JSON_parse p;
     JSON_stringify := JSON_stringify p |}.

(** The payload script element is absent, or its trimmed content is not
    accepted by [JSON.parse]. *)
Definition payloadAbsentOrInvalid (p : Page) : Prop :=
  document_getElementById p "page-init-data" = Ok None \/
  exists el e,
    document_getElementById p "page-init-data" = Ok (Some el) /\
    JSON_parse p (JsString.trim (Dom.textContent el)) = Throw e.

Definition basicWithPageInitData (j : json) (gameData : Basic.GameData) : Basic.GameData :=
  {| Basic.pageInitData := j;
     Basic.extensionData := Basic.extensionData gameData;
     Basic.additionalData := Basic.additionalData gameData;
     Basic.htmlLength := Basic.htmlLength gameData |}.

Definition advancedWithPageInitData (j : json) (gameData : Advanced.GameData)
  : Advanced.GameData :=
  {| Advanced.pageInitData := j;
     Advanced.extensionData := Advanced.extensionData gameData;
     Advanced.dom := Advanced.dom gameData;
     Advanced.localStorage := Advanced.localStorage gameData;
     Advanced.cookies := Advanced.cookies gameData;
     Advanced.computedData := Advanced.computedData gameData |}.





(** ** The request handlers *)

Record Request := {
  method : string;
  query : gmap string string;
  body : option json
}.

(** The headless browser, as the handlers drive it. [page_snapshot] is the
    page the extraction callback runs in ([Throw]: the evaluation call fails
    before the callback runs); [browser_close n] is the outcome of the call
    to [close] made after [n] earlier ones. *)
Record Renderer := {
  puppeteer_launch : result unit;
  browser_newPage : result unit;
  page_setRequestInterception : result unit;
  page_setUserAgent : string -> result unit;
  page_goto : string -> result unit;
  page_evaluate_script : json -> result unit;
  page_waitForTimeout : number -> result unit;
  page_snapshot : result Page;
  page_content : result string;
  browser_close : nat -> result unit;
  Date_now : string
}.

Inductive data :=
| BasicData (d : Basic.GameData)
| AdvancedData (d : Advanced.GameData).

(** A property of a response object; [FValue None] is [undefined], which
    [res.json] leaves out. *)
Inductive field :=
| FBool (b : bool)
| FString (s : string)
| FValue (v : option json)
| FData (d : data).

Inductive payload :=
| Send (text : string)
| SendJson (fields : list (string * field)).

Inductive event :=
| SetHeader (name value : string)
| Launch
| NewPage
| SetRequestInterception
| SetUserAgent (agent : string)
| Goto (url : string)
| EvaluateScript (script : json)
| WaitForTimeout (ms : number)
| EvaluateExtraction
| Content
| Close
| Respond (status : nat) (body : payload).

Definition isClose (ev : event) : bool :=
  match ev with
  | Close => true
  | _ => false
  end.

(** The handler's own state: what it has done so far, and whether its
    variable [browser] holds a browser (rather than [null]). *)
Record HState := { trace : list event; browser : bool }.

Definition Handler (A : Type) : Type := HState -> HState * result A.

Module H.

Definition ret {A} (a : A) : Handler A := fun st => (st, Ok a).

Definition bind {A B} (m : Handler A) (k : A -> Handler B) : Handler B :=
  fun st =>
    match m st with
    | (st', Ok a) => k a st'
    | (st', Throw e) => (st', Throw e)
    end.

Definition emit (ev : event) : Handler unit :=
  fun st => ({| trace := (trace st ++ [ev])%list; browser := browser st |}, Ok tt).

(** [await call]: the call is made, then its outcome is returned or
    thrown. *)
Definition await {A} (ev : event) (outcome : result A) : Handler A :=
  fun st => ({| trace := (trace st ++ [ev])%list; browser := browser st |}, outcome).

Definition setBrowser (b : bool) : Handler unit :=
  fun st => ({| trace := trace st; browser := b |}, Ok tt).

Definition getBrowser : Handler bool :=
  fun st => (st, Ok (browser st)).

Definition tryCatch {A} (body : Handler A) (handler : Error -> Handler A) : Handler A :=
  fun st =>
    match body st with
    | (st', Ok a) => (st', Ok a)
    | (st', Throw e) => handler e st'
    end.

Definition closeBrowser (w : Renderer) : Handler unit :=
  fun st => await Close (browser_close w (length (List.filter isClose (trace st)))) st.

Definition run {A} (h : Handler A) : HState * result A :=
  h {| trace := []; browser := false |}.

End H.

Notation "x <- m ;; k" := (H.bind m (fun x => k))
  (at level 100, m at next level, right associativity, only parsing).
Notation "m ;;; k" := (H.bind m (fun _ => k))
  (at level 100, right associativity, only parsing).

Definition userAgent : string :=
  "Mozilla/5.0 (Windows NT 10.0; Win64; x64) AppleWebKit/537.36 (KHTML, like Gecko) Chrome/120.0.0.0 Safari/537.36".

Definition preflight : Handler unit :=
  H.emit (SetHeader "Access-Control-Allow-Methods" "GET, POST");;;
  H.emit (SetHeader "Access-Control-Allow-Headers" "Content-Type");;;
  H.emit (SetHeader "Access-Control-Max-Age" "3600");;;
  H.emit (Respond 204 (Send EmptyString)).

(** [req.query.k || req.body?.k] *)
Definition param (req : Request) (k : string) : option json :=
  Json.or_else (JString <$> (query req !! k)) (Json.member (body req) k).

Definition gameUrl (gameId : option json) : string :=
  "https://lichess.org/" ++ Json.toStringOpt gameId.

Definition setHtmlLength (n : nat) (gameData : Basic.GameData) : Basic.GameData :=
  {| Basic.pageInitData := Basic.pageInitData gameData;
     Basic.extensionData := Basic.extensionData gameData;
     Basic.additionalData := Basic.additionalData gameData;
     Basic.htmlLength := Some n |}.

Definition usage : string :=
  "Call with ?gameId=YOUR_GAME_ID or POST with {"
    ++ JsString.dquote ++ "gameId" ++ JsString.dquote ++ ": "
    ++ JsString.dquote ++ "YOUR_GAME_ID" ++ JsString.dquote ++ "}".

Definition fetchLichessGame (w : Renderer) (req : Request) : Handler unit :=
  H.emit (SetHeader "Access-Control-Allow-Origin" "*");;;
  if String.eqb (method req) "OPTIONS" then preflight
  else
    let gameId := param req "gameId" in
    if negb (Json.truthy gameId) then
      H.emit (Respond 400 (SendJson [("error", FString "Missing gameId parameter");
                                     ("usage", FString usage)]))
    else
      H.tryCatch
        (H.await Launch (puppeteer_launch w);;;
         H.setBrowser true;;;
         H.await NewPage (browser_newPage w);;;
         H.await (SetUserAgent userAgent) (page_setUserAgent w userAgent);;;
         let url := gameUrl gameId in
         H.await (Goto url) (page_goto w url);;;
         H.await (WaitForTimeout (Num 3000)) (page_waitForTimeout w (Num 3000));;;
         gameData <- H.await EvaluateExtraction (page_snapshot w ≫= Basic.evaluate);;
         html <- H.await Content (page_content w);;
         let gameData := setHtmlLength (String.length html) gameData in
         H.closeBrowser w;;;
         H.setBrowser false;;;
         H.emit (Respond 200 (SendJson [("success", FBool true);
                                        ("gameId", FValue gameId);
                                        ("data", FData (BasicData gameData));
                                        ("timestamp", FString (Date_now w))])))
        (fun error =>
           open <- H.getBrowser;;
           (if open then H.closeBrowser w else H.ret tt);;;
           H.emit (Respond 500 (SendJson [("success", FBool false);
                                          ("error", FString (message error));
                                          ("gameId", FValue gameId)]))).

(** [req.query.waitTime || req.body?.waitTime || '5000'] *)
Definition rawWaitTime (req : Request) : option json :=
  Json.or_else (param req "waitTime") (Some (JString "5000")).

Definition waitTime (req : Request) : number :=
  JsNumber.parseInt (Json.toStringOpt (rawWaitTime req)).

Definition fetchLichessGameAdvanced (w : Renderer) (req : Request) : Handler unit :=
  H.emit (SetHeader "Access-Control-Allow-Origin" "*");;;
  if String.eqb (method req) "OPTIONS" then preflight
  else
    let gameId := param req "gameId" in
    let customScript := Json.member (body req) "customScript" in
    let waitTime := waitTime req in
    if negb (Json.truthy gameId) then
      H.emit (Respond 400 (SendJson [("error", FString "Missing gameId parameter")]))
    else
      H.tryCatch
        (H.await Launch (puppeteer_launch w);;;
         H.setBrowser true;;;
         H.await NewPage (browser_newPage w);;;
         H.await SetRequestInterception (page_setRequestInterception w);;;
         H.await (SetUserAgent userAgent) (page_setUserAgent w userAgent);;;
         let url := gameUrl gameId in
         H.await (Goto url) (page_goto w url);;;
         (match customScript with
          | Some script =>
              if Json.truthy customScript
              then H.await (EvaluateScript script) (page_evaluate_script w script)
              else H.ret tt
          | None => H.ret tt
          end);;;
         H.await (WaitForTimeout waitTime) (page_waitForTimeout w waitTime);;;
         gameData <- H.await EvaluateExtraction (page_snapshot w ≫= Advanced.evaluate);;
         H.closeBrowser w;;;
         H.setBrowser false;;;
         H.emit (Respond 200 (SendJson [("success", FBool true);
                                        ("gameId", FValue gameId);
                                        ("data", FData (AdvancedData gameData));
                                        ("timestamp", FString (Date_now w))])))
        (fun error =>
           open <- H.getBrowser;;
           (if open then H.closeBrowser w else H.ret tt);;;
           H.emit (Respond 500 (SendJson [("success", FBool false);
                                          ("error", FString (message error));
                                          ("stack", FString (stack error));
                                          ("gameId", FValue gameId)]))).

(** ** Observing a run *)

Definition traceOf (h : Handler unit) : list event := trace (fst (H.run h)).

Definition returns (h : Handler unit) : bool := negb (throws (snd (H.run h))).

Definition responses (tr : list event) : list (nat * payload) :=
  omap (fun ev => match ev with
                  | Respond status body => Some (status, body)
                  | _ => None
                  end) tr.

Definition statuses (tr : list event) : list nat := (responses tr).*1.

Definition closes (tr : list event) : nat := length (List.filter isClose tr).


(** The property [k] of a response object, as the client reads it from the
    JSON text: a property holding [undefined] is not there. *)
Definition property (k : string) (body : payload) : option field :=
  match body with
  | Send _ => None
  | SendJson fields =>
      match Json.assoc k fields with
      | Some (FValue None) => None
      | found => found
      end
  end.



Definition isInjection (ev : event) : bool :=
  match ev with
  | EvaluateScript _ => true
  | _ => false
  end.

Definition dataOf (body : payload) : option data :=
  match property "data" body with
  | Some (FData d) => Some d
  | _ => None
  end.



Definition isDigit (c : ascii) : bool := JsString.between 48 57 (nat_of_ascii c).

(** The string begins with an integer: after leading white space and an
    optional sign comes a decimal digit. *)
Definition beginsWithInteger (s : string) : bool :=
  match snd (JsNumber.stripSign (JsString.trimStart s)) with
  | String c _ => isDigit c
  | EmptyString => false
  end.

(** The [data] objects of the responses sent, in order. *)
Definition sentData (tr : list event) : list data :=
  omap (fun response => dataOf (snd response)) (responses tr).

Inductive variant := BasicVariant | AdvancedVariant.

Definition handler (v : variant) : Renderer -> Request -> Handler unit :=
  match v with
  | BasicVariant => fetchLichessGame
  | AdvancedVariant => fetchLichessGameAdvanced
  end.

(** ** Sample pages, browsers and requests *)

Module Sample.

Definition boom : Error := {| message := "boom"; stack := "Error: boom at line 1" |}.

Definition timeout : Error :=
  {| message := "Navigation timeout of 30000 ms exceeded";
     stack := "TimeoutError: Navigation timeout of 30000 ms exceeded" |}.

Definition banner : Dom.Element :=
  {| Dom.tagName := "DIV";
     Dom.id := "banner";
     Dom.className := "extension";
     Dom.attributes := [ {| Dom.name := "data-extension"; Dom.value := "1" |} ];
     Dom.textContent := " hello " |}.

(** A page with no payload script; four globals, of which reading
    [__hook] throws, [lichess] is a plain object and [__cycle] an object
    that [JSON.stringify] rejects; one element the extension selectors
    match; and a JSON parser that knows the empty object only. *)
Definition page : Page :=
  {| document_getElementById := fun _ => Ok None;
     document_querySelectorAll := fun selector =>
       if String.eqb selector "[data-extension]" || String.eqb selector Basic.customSelector
       then Ok [banner] else Ok [];
     document_title := Ok "Game";
     window_location_href := Ok "https://lichess.org/abc";
     Object_keys_window := Ok ["__hook"; "frames"; "lichess"; "__cycle"];
     window_get := fun key =>
       if String.eqb key "__hook" then Throw boom
       else if String.eqb key "lichess" then Ok (VObject 0)
       else if String.eqb key "__cycle" then Ok (VObject 1)
       else Ok (VNumber (Num 3));
     Object_keys_localStorage := Ok ["lichess.theme"; "volume"];
     localStorage_getItem := fun key =>
       if String.eqb key "lichess.theme" then Ok (Some "dark") else Ok None;
     JSON_parse := fun text =>
       if String.eqb text "{}" then Ok (JObject []) else Throw boom;
     JSON_stringify := fun value =>
       match value with
       | VObject 0 => Ok (Some "{}")
       | _ => Throw boom
       end |}.

Definition payloadScript (content : string) : Dom.Element :=
  {| Dom.tagName := "SCRIPT";
     Dom.id := "page-init-data";
     Dom.className := EmptyString;
     Dom.attributes := [ {| Dom.name := "id"; Dom.value := "page-init-data" |} ];
     Dom.textContent := content |}.

(** The same page with a payload script that is not JSON. *)
Definition brokenPayloadPage : Page :=
  withPageInitScript (Some (payloadScript "{oops")) page.


Definition rendererOf (snapshot : Page) : Renderer :=
  {| puppeteer_launch := Ok tt;
     browser_newPage := Ok tt;
     page_setRequestInterception := Ok tt;
     page_setUserAgent := fun _ => Ok tt;
     page_goto := fun _ => Ok tt;
     page_evaluate_script := fun _ => Ok tt;
     page_waitForTimeout := fun _ => Ok tt;
     page_snapshot := Ok snapshot;
     page_content := Ok "<html></html>";
     browser_close := fun _ => Ok tt;
     Date_now := "2024-01-01T00:00:00.000Z" |}.

Definition renderer : Renderer := rendererOf page.

(** The same browser, but navigation runs into its timeout. *)
Definition slowRenderer : Renderer :=
  {| puppeteer_launch := Ok tt;
     browser_newPage := Ok tt;
     page_setRequestInterception := Ok tt;
     page_setUserAgent := fun _ => Ok tt;
     page_goto := fun _ => Throw timeout;
     page_evaluate_script := fun _ => Ok tt;
     page_waitForTimeout := fun _ => Ok tt;
     page_snapshot := Ok page;
     page_content := Ok "<html></html>";
     browser_close := fun _ => Ok tt;
     Date_now := "2024-01-01T00:00:00.000Z" |}.

(** The same browser, but the injected script throws. *)
Definition brokenScriptRenderer : Renderer :=
  {| puppeteer_launch := Ok tt;
     browser_newPage := Ok tt;
     page_setRequestInterception := Ok tt;
     page_setUserAgent := fun _ => Ok tt;
     page_goto := fun _ => Ok tt;
     page_evaluate_script := fun _ => Throw boom;
     page_waitForTimeout := fun _ => Ok tt;
     page_snapshot := Ok page;
     page_content := Ok "<html></html>";
     browser_close := fun _ => Ok tt;
     Date_now := "2024-01-01T00:00:00.000Z" |}.

Fixpoint repeatChar (c : ascii) (n : nat) : string :=
  match n with
  | O => EmptyString
  | S n' => String c (repeatChar c n')
  end.

(** An element the extension selectors match, with 10000 characters of
    text. *)
Definition longBanner : Dom.Element :=
  {| Dom.tagName := "DIV";
     Dom.id := "banner";
     Dom.className := "extension";
     Dom.attributes := [];
     Dom.textContent := repeatChar "x" (100 * 100) |}.

Definition longPage : Page :=
  withSelector Basic.customSelector (Ok [longBanner])
    (withSelector "[data-extension]" (Ok [longBanner]) page).

Definition getGame : Request :=
  {| method := "GET"; query := {[ "gameId" := "abc" ]}; body := None |}.

Definition postScript : Request :=
  {| method := "POST";
     query := ∅;
     body := Some (JObject [("gameId", JString "abc");
                            ("customScript", JString "window.__marker = 1");
                            ("waitTime", JString "soon")]) |}.



End Sample.

(** ** Further observations of a run *)

(** The calls made on the browser before it is closed. *)
Definition isBrowserStep (ev : event) : bool :=
  match ev with
  | SetHeader _ _ | Close | Respond _ _ => false
  | _ => true
  end.

Definition browserSteps (tr : list event) : list event := List.filter isBrowserStep tr.

(** What [if (customScript) await page.evaluate(customScript)] amounts to. *)
Definition injection (req : Request) : list json :=
  match Json.member (body req) "customScript" with
  | Some script => if Json.truthy (Some script) then [script] else []
  | None => []
  end.

(** The browser calls of a run in which nothing fails. *)
Definition plan (v : variant) (req : Request) : list event :=
  match v with
  | BasicVariant =>
      [Launch; NewPage; SetUserAgent userAgent; Goto (gameUrl (param req "gameId"));
       WaitForTimeout (Num 3000); EvaluateExtraction; Content]
  | AdvancedVariant =>
      ([Launch; NewPage; SetRequestInterception; SetUserAgent userAgent;
        Goto (gameUrl (param req "gameId"))]
       ++ List.map EvaluateScript (injection req)
       ++ [WaitForTimeout (waitTime req); EvaluateExtraction])%list
  end.

Definition forget {A} (r : result A) : result unit :=
  match r with
  | Ok _ => Ok tt
  | Throw e => Throw e
  end.

Fixpoint firstError (outcomes : list (result unit)) : option Error :=
  match outcomes with
  | [] => None
  | Ok _ :: rest => firstError rest
  | Throw e :: _ => Some e
  end.





(** ** More sample browsers *)

Module Fixture.

(** A browser that cannot be launched. *)
Definition noBrowser : Renderer :=
  {| puppeteer_launch := Throw Sample.boom;
     browser_newPage := Ok tt;
     page_setRequestInterception := Ok tt;
     page_setUserAgent := fun _ => Ok tt;
     page_goto := fun _ => Ok tt;
     page_evaluate_script := fun _ => Ok tt;
     page_waitForTimeout := fun _ => Ok tt;
     page_snapshot := Ok Sample.page;
     page_content := Ok "<html></html>";
     browser_close := fun _ => Ok tt;
     Date_now := "2024-01-01T00:00:00.000Z" |}.


(** The sample page with four inline scripts: JSON (with white space
    around it), code, broken JSON, and JSON again. *)
Definition scriptsPage : Page :=
  withSelector "script:not([src])"
    (Ok [Sample.payloadScript "  {}  "; Sample.payloadScript "var x = 1";
         Sample.payloadScript "[oops"; Sample.payloadScript "{}"])
    Sample.page.

(** A function on the global object, with a source of 300 characters. *)
Definition longFunctionPage : Page :=
  {| document_getElementById := document_getElementById Sample.page;
     document_querySelectorAll := document_querySelectorAll Sample.page;
     document_title := document_title Sample.page;
     window_location_href := window_location_href Sample.page;
     Object_keys_window := Ok ["_render"];
     window_get := fun _ => Ok (VFunction (Ok (Sample.repeatChar "f" 300)));
     Object_keys_localStorage := Object_keys_localStorage Sample.page;
     localStorage_getItem := localStorage_getItem Sample.page;
     JSON_parse := JSON_parse Sample.page;
     JSON_stringify := JSON_stringify Sample.page |}.

End Fixture.

(** ** Further observations of an extraction *)

(** The outcomes of the queries each script makes outside any [try], in the
    order it makes them. *)
Definition unguardedQueries (v : variant) (p : Page) : list (result unit) :=
  match v with
  | BasicVariant =>
      [forget (document_getElementById p "page-init-data");
       forget (Object_keys_window p);
       forget (document_title p);
       forget (window_location_href p);
       forget (document_querySelectorAll p ".moves move");
       forget (document_querySelectorAll p "[data-analysis]");
       forget (document_querySelectorAll p Basic.customSelector)]
  | AdvancedVariant =>
      ([forget (document_getElementById p "page-init-data");
        forget (Object_keys_window p);
        forget (document_title p);
        forget (window_location_href p)]
       ++ List.map (fun selector => forget (document_querySelectorAll p selector))
                   fixedQueries)%list
  end.

Definition thrown {A} (r : result A) : option Error :=
  match r with
  | Ok _ => None
  | Throw e => Some e
  end.

(** What one inline script contributes to [jsonScripts]: its parsed content
    when that starts with a brace or bracket and parses, nothing otherwise. *)
Definition inlineJson (p : Page) (script : Dom.Element) : option json :=
  let content := JsString.trim (Dom.textContent script) in
  if JsString.startsWith content "{" || JsString.startsWith content "[" then
    match JSON_parse p content with
    | Ok parsed => Some parsed
    | Throw _ => None
    end
  else None.

(** What one extension selector contributes to [data.dom]: the entries of
    the elements it matches, when it can be queried and matches any. *)
Definition selected (p : Page) (selector : string) : option (list Advanced.ElementEntry) :=
  match document_querySelectorAll p selector with
  | Ok elements => mapIfAny Advanced.elementEntry elements
  | Throw _ => None
  end.

(** What one storage key contributes to [data.localStorage]. *)
Definition stored (p : Page) (key : string) : option (option string) :=
  if Advanced.storageMatches key then
    match localStorage_getItem p key with
    | Ok value => Some value
    | Throw _ => None
    end
  else None.

Module Fixture2.


End Fixture2.

(** ** The Apps Script side: the client of the Cloud Function and the
       organizer of its data

    [GoogleAppScript.js] calls the deployed function and hands its [data] to
    the extractors of [GoogleAppScript-advanced.js]. What they read is JSON:
    a value of type [option json], [None] being [undefined]. Logging is left
    out, except that an argument of [Logger.log] whose evaluation throws
    still throws. *)

Module AppsScript.

(** The value thrown on reading a property of [null] or [undefined], or on
    calling what is not a function. *)
Definition typeError : Error := {| message := "TypeError"; stack := EmptyString |}.

(** [o.k] for one of the property names the scripts use (none of which an
    array or a string has). *)
Definition get (o : option json) (k : string) : result (option json) :=
  match o with
  | None => Throw typeError
  | Some JNull => Throw typeError
  | Some _ => Ok (Json.member o k)
  end.

Record HttpResponse := { getResponseCode : Z; getContentText : string }.

(** The services of the Apps Script runtime: [UrlFetchApp.fetch] (with
    [muteHttpExceptions]), [JSON.parse], and the conversion of a string to a
    number. *)
Record Host := {
  UrlFetchApp_fetch : string -> result HttpResponse;
  parseJson : string -> result json;
  stringToNumber : string -> number
}.

Definition CLOUD_FUNCTION_URL : string :=
  "https://YOUR-REGION-YOUR-PROJECT.cloudfunctions.net/fetchLichessGame".

(** [null] is [None]. After [jsonResponse.data.htmlLength] has been read,
    the remaining reads of the function cannot throw. *)
Definition fetchLichessGameWithExtensions (h : Host) (gameId : option json) : option json :=
  if negb (Json.truthy gameId) then None
  else
    try_catch
      (let url := CLOUD_FUNCTION_URL ++ "?gameId=" ++ Json.toStringOpt gameId in
       response ← UrlFetchApp_fetch h url;
       let statusCode := getResponseCode response in
       if negb (statusCode =? 200)%Z then mret None
       else
         jsonResponse ← parseJson h (getContentText response);
         success ← get (Some jsonResponse) "success";
         if Json.truthy success then
           data ← get (Some jsonResponse) "data";
           _ ← get data "htmlLength";
           mret data
         else mret None)
      (fun _ => None).

(** *** [formatTime] *)

Definition numberToString (n : number) : string :=
  match n with
  | NaN => "NaN"
  | Num z => NilZero.string_of_int (Z.to_int z)
  end.

Fixpoint repeatChar (c : ascii) (n : nat) : string :=
  match n with
  | O => EmptyString
  | S n' => String c (repeatChar c n')
  end.

(** [s.padStart(targetLength, c)] *)
Definition padStart (targetLength : nat) (c : ascii) (s : string) : string :=
  repeatChar c (targetLength - String.length s) ++ s.

(** [Math.floor(seconds / 60)] and [seconds % 60]; the remainder has the
    sign of [seconds]. *)
Definition formatTime (seconds : number) : string :=
  let mins := match seconds with NaN => NaN | Num z => Num (z / 60) end in
  let secs := match seconds with NaN => NaN | Num z => Num (Z.rem z 60) end in
  numberToString mins ++ ":" ++ padStart 2 "0" (numberToString secs).

(** ToNumber of a JSON value; arrays and objects go through their string. *)
Definition toNumber (h : Host) (j : json) : number :=
  match j with
  | JNull => Num 0
  | JBool true => Num 1
  | JBool false => Num 0
  | JNumber z => Num z
  | JString s => stringToNumber h s
  | JArray _ | JObject _ => stringToNumber h (Json.toString j)
  end.

(** *** [extractBasicInfo], [extractOpening], [extractPlayerInfo] *)

Record BasicInfo := {
  id : option json;
  variant : option json;
  speed : option json;
  rated : option json;
  initialFen : option json;
  status : option json;
  winner : option json;
  startedAt : option json;
  lastMoveAt : option json
}.

Definition extractBasicInfo (data : option json) : result (option BasicInfo) :=
  pageInit ← get data "pageInitData";
  if negb (Json.truthy pageInit) then mret None
  else if negb (Json.truthy (Json.member pageInit "game")) then mret None
  else
    let game := Json.member pageInit "game" in
    mret (Some {| id := Json.member game "id";
                  variant := Json.or_else (Json.member (Json.member game "variant") "key")
                                          (Some (JString "standard"));
                  speed := Json.member game "speed";
                  rated := Json.member game "rated";
                  initialFen := Json.member game "initialFen";
                  status := Json.member (Json.member game "status") "name";
                  winner := Json.member game "winner";
                  startedAt := Json.member game "createdAt";
                  lastMoveAt := Json.member game "lastMoveAt" |}).

Record Opening := {
  opening_name : option json;
  opening_eco : option json;
  opening_ply : option json
}.

Definition extractOpening (data : option json) : result Opening :=
  pageInit ← get data "pageInitData";
  let op := Json.member (Json.member pageInit "game") "opening" in
  if Json.truthy op then
    mret {| opening_name := Json.member op "name";
            opening_eco := Json.member op "eco";
            opening_ply := Json.member op "ply" |}
  else
    mret {| opening_name := Some JNull;
            opening_eco := Some JNull;
            opening_ply := Some JNull |}.

Record Player := {
  name : option json;
  rating : option json;
  ratingDiff : option json;
  userId : option json;
  title : option json
}.

Record Players := { white : option Player; black : option Player }.

Definition playerOf (side : option json) : option Player :=
  if Json.truthy side then
    Some {| name := Json.or_else (Json.member side "name")
                                 (Json.member (Json.member side "user") "name");
            rating := Json.member side "rating";
            ratingDiff := Json.member side "ratingDiff";
            userId := Json.member (Json.member side "user") "id";
            title := Json.member (Json.member side "user") "title" |}
  else None.

Definition extractPlayerInfo (data : option json) : result Players :=
  pageInit ← get data "pageInitData";
  let gamePlayers := Json.member (Json.member pageInit "game") "players" in
  if Json.truthy gamePlayers then
    mret {| white := playerOf (Json.member gamePlayers "white");
            black := playerOf (Json.member gamePlayers "black") |}
  else mret {| white := None; black := None |}.

(** *** [extractMoves] *)

(** [s.split(c)] for a separator of one character. *)
Fixpoint split (sep : ascii) (s : string) : list string :=
  match s with
  | EmptyString => [EmptyString]
  | String c rest =>
      if Ascii.eqb c sep then EmptyString :: split sep rest
      else match split sep rest with
           | first :: others => String c first :: others
           | [] => [String c EmptyString]
           end
  end.

(** An element of [moves]; [moveNumber] is its property [number]. *)
Record Move := {
  moveNumber : nat;
  color : string;
  move : string;
  san : string;
  clockSeconds : option json;
  clockTime : option string;
  evaluation : option json
}.

Definition newMove (index : nat) (token : string) : Move :=
  {| moveNumber := index / 2 + 1;
     color := if Nat.eqb (index mod 2) 0 then "white" else "black";
     move := token;
     san := token;
     clockSeconds := None;
     clockTime := None;
     evaluation := None |}.

Definition withClock (h : Host) (clock : json) (m : Move) : Move :=
  {| moveNumber := moveNumber m;
     color := color m;
     move := move m;
     san := san m;
     clockSeconds := Some clock;
     clockTime := Some (formatTime (toNumber h clock));
     evaluation := evaluation m |}.

Definition withEvaluation (value : option json) (m : Move) : Move :=
  {| moveNumber := moveNumber m;
     color := color m;
     move := move m;
     san := san m;
     clockSeconds := clockSeconds m;
     clockTime := clockTime m;
     evaluation := value |}.

(** Body of [clocks.forEach]: [if (moves[index]) { ... }]. *)
Definition setClock (h : Host) (moves : list Move) (entry : nat * json) : list Move :=
  alter (withClock h (snd entry)) (fst entry) moves.

(** Body of [evaluations.forEach]; [eval.eval] is read only when
    [moves[index]] exists. *)
Definition setEvaluation (moves : result (list Move)) (entry : nat * json)
  : result (list Move) :=
  current ← moves;
  match current !! fst entry with
  | Some _ =>
      value ← get (Some (snd entry)) "eval";
      mret (alter (withEvaluation value) (fst entry) current)
  | None => mret current
  end.

Definition indexed {A} (l : list A) : list (nat * A) := imap pair l.

Definition extractMoves (h : Host) (data : option json) : result (list Move) :=
  pageInit ← get data "pageInitData";
  let game := Json.member pageInit "game" in
  moves ← (let moveString := Json.member game "moves" in
           if Json.truthy moveString then
             match moveString with
             | Some (JString s) => Ok (imap newMove (split " " s))
             | _ => Throw typeError
             end
           else Ok []);
  moves ← (let clocks := Json.member game "clocks" in
           if Json.truthy clocks then
             match clocks with
             | Some (JArray items) => Ok (foldl (setClock h) moves (indexed items))
             | _ => Throw typeError
             end
           else Ok moves);
  dom ← get data "dom";
  let evaluations := Json.member dom "evaluations" in
  if Json.truthy evaluations then
    match evaluations with
    | Some (JArray items) => foldl setEvaluation (Ok moves) (indexed items)
    | _ => Throw typeError
    end
  else Ok moves.

(** *** [extractExtensionSpecificData] *)

Definition indexKey (i : nat) : string := NilZero.string_of_uint (Nat.to_uint i).

(** [Object.keys(v)], each key with [v[key]]. The fields of a [JObject] are
    its own properties in property order, with distinct names, as
    [JSON.parse] builds them. *)
Definition entries (v : json) : list (string * json) :=
  match v with
  | JObject fields => fields
  | JArray items => imap (fun i x => (indexKey i, x)) items
  | JString s =>
      imap (fun i c => (indexKey i, JString (String c EmptyString))) (list_ascii_of_string s)
  | _ => []
  end.

(** What [if (v) { Object.keys(v).forEach(...) }] visits. *)
Definition visited (v : option json) : list (string * json) :=
  match v with
  | Some j => if Json.truthy v then entries j else []
  | None => []
  end.

Record Enhancement := { enhancement_type : string; enhancement_data : json }.

Record ExtensionSpecific := {
  found : bool;
  tools : gmap string json;
  settings : gmap string json;
  enhancements : list Enhancement
}.

Definition isToolKey (key : string) : bool :=
  let keyLower := JsString.toLowerCase key in
  JsString.includes keyLower "lichesstools" || JsString.includes keyLower "lichess-tools".

Definition isSettingKey (key : string) : bool :=
  JsString.includes key "LichessTools" || JsString.includes key "lichess-tools".

Definition isEnhancementKey (key : string) : bool :=
  JsString.includes key "tool" || JsString.includes key "extension"
  || JsString.includes key "enhanced".

(** [try { x = JSON.parse(value) } catch (e) { x = value }] *)
Definition parseOrKeep (h : Host) (value : json) : json :=
  try_catch (parseJson h (Json.toString value)) (fun _ => value).

Definition recordTool (acc : ExtensionSpecific) (entry : string * json) : ExtensionSpecific :=
  if isToolKey (fst entry) then
    {| found := true;
       tools := <[fst entry := snd entry]> (tools acc);
       settings := settings acc;
       enhancements := enhancements acc |}
  else acc.

Definition recordSetting (h : Host) (acc : ExtensionSpecific) (entry : string * json)
  : ExtensionSpecific :=
  if isSettingKey (fst entry) then
    {| found := true;
       tools := tools acc;
       settings := <[fst entry := parseOrKeep h (snd entry)]> (settings acc);
       enhancements := enhancements acc |}
  else acc.

Definition recordEnhancement (acc : ExtensionSpecific) (entry : string * json)
  : ExtensionSpecific :=
  if isEnhancementKey (fst entry) then
    {| found := found acc;
       tools := tools acc;
       settings := settings acc;
       enhancements := enhancements acc
                       ++ [{| enhancement_type := fst entry; enhancement_data := snd entry |}] |}
  else acc.

Definition extractExtensionSpecificData (h : Host) (data : option json)
  : result ExtensionSpecific :=
  let extensionData := {| found := false; tools := ∅; settings := ∅; enhancements := [] |} in
  fromWindow ← get data "extensionData";
  let extensionData := foldl recordTool extensionData (visited fromWindow) in
  let extensionData :=
    foldl (recordSetting h) extensionData (visited (Json.member data "localStorage")) in
  let extensionData :=
    foldl recordEnhancement extensionData (visited (Json.member data "dom")) in
  mret extensionData.

(** *** [writeBasicInfoToSheet] *)

(** The result of [extractTiming], of which the sheet writer reads
    [timeControl]. *)
Record Timing := {
  timeControl : option json;
  clockInitial : option json;
  clockIncrement : option json;
  totalGameTime : option json
}.

(** [sheet.getRange(row, column).setValue(value)] *)
Record CellWrite := { row : nat; column : nat; value : option json }.

(** [lastRow] is what [sheet.getLastRow()] answers. The cells are listed in
    the order they are set; reading [basicInfo.id] of [null] throws before
    the first of them is. *)
Definition writeBasicInfoToSheet (lastRow : nat) (basicInfo : option BasicInfo)
    (timing : Timing) (opening : Opening) : result (list CellWrite) :=
  let row := lastRow + 1 in
  match basicInfo with
  | None => Throw typeError
  | Some info =>
      Ok [ {| row := row; column := 1; value := id info |};
           {| row := row; column := 2; value := variant info |};
           {| row := row; column := 3; value := speed info |};
           {| row := row; column := 4;
              value := Some (JString (if Json.truthy (rated info) then "Rated" else "Casual")) |};
           {| row := row; column := 5; value := status info |};
           {| row := row; column := 6;
              value := Json.or_else (winner info) (Some (JString "Draw")) |};
           {| row := row; column := 7; value := timeControl timing |};
           {| row := row; column := 8; value := opening_name opening |};
           {| row := row; column := 9; value := opening_eco opening |} ]
  end.

End AppsScript.

(** The parts of the data that [extractMoves] reads, for stating what it
    returns. *)
Definition gameOf (data : option json) : option json :=
  Json.member (Json.member data "pageInitData") "game".

Definition tokensOf (data : option json) : list string :=
  match Json.member (gameOf data) "moves" with
  | Some (JString s) => if JsString.isEmpty s then [] else AppsScript.split " " s
  | _ => []
  end.

Definition clocksOf (data : option json) : list json :=
  match Json.member (gameOf data) "clocks" with
  | Some (JArray items) => items
  | _ => []
  end.

Definition evaluationsOf (data : option json) : list json :=
  match Json.member (Json.member data "dom") "evaluations" with
  | Some (JArray items) => items
  | _ => []
  end.

(** Whether the organizer's loops over [data.extensionData] and
    [data.localStorage] meet a key they keep. *)
Definition toolSeen (l : list (string * json)) : bool :=
  existsb (fun entry => AppsScript.isToolKey (fst entry)) l.

Definition settingSeen (l : list (string * json)) : bool :=
  existsb (fun entry => AppsScript.isSettingKey (fst entry)) l.

(** A truthy value the extractor calls a method on without having one. *)
Definition truthyButNot (shape : json -> bool) (v : option json) : bool :=
  Json.truthy v && negb (from_option shape false v).

Definition isString (j : json) : bool := match j with JString _ => true | _ => false end.
Definition isArray (j : json) : bool := match j with JArray _ => true | _ => false end.

Module Fixture3.

Definition host (status : Z) (text : string) (parsed : result json) : AppsScript.Host :=
  {| AppsScript.UrlFetchApp_fetch := fun _ =>
       Ok {| AppsScript.getResponseCode := status; AppsScript.getContentText := text |};
     AppsScript.parseJson := fun _ => parsed;
     AppsScript.stringToNumber := fun _ => NaN |}.

Definition gameData : json :=
  JObject [("pageInitData",
            JObject [("game",
                      JObject [("id", JString "abcd1234");
                               ("moves", JString "e4 e5 Nf3");
                               ("clocks", JArray [JNumber 300; JNumber 295; JNumber 61; JNumber 7])])]);
           ("extensionData", JObject [("lichessTools", JObject []); ("chessground", JNull)]);
           ("localStorage", JObject [("lichess-tools.prefs", JString "{}")]);
           ("dom", JObject [("title", JString "Game");
                            ("evaluations",
                             JArray [JObject [("eval", JString "+0.3")]; JNumber 4]);
                            ("data-extension", JArray [])])].

Definition envelope : json :=
  JObject [("success", JBool true); ("data", gameData)].

Definition noTiming : AppsScript.Timing :=
  {| AppsScript.timeControl := Some JNull;
     AppsScript.clockInitial := Some JNull;
     AppsScript.clockIncrement := Some JNull;
     AppsScript.totalGameTime := Some JNull |}.

Definition noOpening : AppsScript.Opening :=
  {| AppsScript.opening_name := Some JNull;
     AppsScript.opening_eco := Some JNull;
     AppsScript.opening_ply := Some JNull |}.

End Fixture3.

(** * Properties *)

(** ** Tactics for running a handler *)

Ltac unfold_handler :=
  unfold traceOf, returns, H.run, fetchLichessGame, fetchLichessGameAdvanced, preflight,
    H.tryCatch, H.bind, H.await, H.emit, H.setBrowser, H.getBrowser,
    H.closeBrowser, H.ret; simpl.

Ltac split_outcome :=
  match goal with
  | |- context [match ?r with Ok _ => _ | Throw _ => _ end] =>
      lazymatch r with
      | context [match _ with Ok _ => _ | Throw _ => _ end] => fail
      | _ => let E := fresh "Hcall" in destruct r as [?|?] eqn:E; simpl
      end
  end.

Ltac split_script req :=
  let script := fresh "script" in
  let Hscript := fresh "Hscript" in
  destruct (Json.member (body req) "customScript") as [script|];
  [destruct (Json.truthy (Some script)) eqn:Hscript|]; simpl.



(** ** The runtime primitives on small inputs *)

Example parseInt_decimal : JsNumber.parseInt "5000" = Num 5000.
Proof. reflexivity. Qed.

Example parseInt_skips_space_and_reads_sign : JsNumber.parseInt "  -42px" = Num (-42).
Proof. reflexivity. Qed.

Example parseInt_hexadecimal : JsNumber.parseInt "0x1F" = Num 31.
Proof. reflexivity. Qed.

Example parseInt_no_digits : JsNumber.parseInt "soon" = NaN.
Proof. reflexivity. Qed.

Example parseInt_empty : JsNumber.parseInt EmptyString = NaN.
Proof. reflexivity. Qed.

Example trim_both_ends : JsString.trim "  a b  " = "a b".
Proof. reflexivity. Qed.

Example substring_clamps : JsString.substring "abcdef" 0 500 = "abcdef".
Proof. reflexivity. Qed.

Example substring_swaps : JsString.substring "abcdef" 4 2 = "cd".
Proof. reflexivity. Qed.

Example toString_array : Json.toString (JArray [JNumber 1; JNull; JString "a"]) = "1,,a".
Proof. reflexivity. Qed.

Example selector_keys :
  List.map Advanced.selectorKey Advanced.extensionSelectors
  = ["data-lichess-tools"; "data-extension"; "class=extension"; "class=tool";
     "class=enhanced"; "id=extension"; "id=tool"].
Proof. reflexivity. Qed.

(** No key the selector scan adds to [data.dom] is one of its fixed keys. *)
Lemma selector_keys_fresh (selector : string) :
  In selector Advanced.extensionSelectors ->
  ~ In (Advanced.selectorKey selector) ["title"; "url"; "moves"; "players"; "evaluations"].
Proof.
  intros Hin. vm_compute in Hin.
  repeat (destruct Hin as [<-|Hin]; [vm_compute; intuition discriminate|]).
  contradiction.
Qed.

Example sample_advanced_run :
  removelast (traceOf (fetchLichessGameAdvanced Sample.renderer Sample.postScript))
  = [SetHeader "Access-Control-Allow-Origin" "*"; Launch; NewPage; SetRequestInterception;
     SetUserAgent userAgent; Goto "https://lichess.org/abc";
     EvaluateScript (JString "window.__marker = 1"); WaitForTimeout NaN;
     EvaluateExtraction; Close] /\
  statuses (traceOf (fetchLichessGameAdvanced Sample.renderer Sample.postScript)) = [200].
Proof. split; vm_compute; reflexivity. Qed.

Example sample_basic_timeout :
  traceOf (fetchLichessGame Sample.slowRenderer Sample.getGame)
  = [SetHeader "Access-Control-Allow-Origin" "*"; Launch; NewPage;
     SetUserAgent userAgent; Goto "https://lichess.org/abc"; Close;
     Respond 500 (SendJson [("success", FBool false);
                            ("error", FString "Navigation timeout of 30000 ms exceeded");
                            ("gameId", FValue (Some (JString "abc")))])].
Proof. vm_compute. reflexivity. Qed.

(** ** Validation: a request without [gameId] *)




(** ** Release of the browser *)





(** ** The response envelope *)


(** ** The settle delay *)

Lemma digitValue_nondigit c d :
  isDigit c = false -> JsNumber.digitValue c = Some d -> (10 <= d)%Z.
Proof.
  unfold isDigit, JsNumber.digitValue. intros ->.
  unfold JsString.between.
  destruct (Nat.leb 97 (nat_of_ascii c) && Nat.leb (nat_of_ascii c) 122) eqn:Hlow.
  - intros [= <-]. apply andb_true_iff in Hlow as [Hlo _].
    apply Nat.leb_le in Hlo. lia.
  - destruct (Nat.leb 65 (nat_of_ascii c) && Nat.leb (nat_of_ascii c) 90) eqn:Hup;
      [|discriminate].
    intros [= <-]. apply andb_true_iff in Hup as [Hlo _].
    apply Nat.leb_le in Hlo. lia.
Qed.

Lemma stripPrefix_nondigit c rest :
  isDigit c = false -> JsNumber.stripPrefix (String c rest) = (10%Z, String c rest).
Proof.
  destruct c as [[] [] [] [] [] [] [] []]; intros H; try reflexivity; discriminate H.
Qed.

Lemma parseInt_without_integer s :
  beginsWithInteger s = false -> JsNumber.parseInt s = NaN.
Proof.
  unfold beginsWithInteger, JsNumber.parseInt.
  destruct (JsNumber.stripSign (JsString.trimStart s)) as [sign rest]. simpl.
  destruct rest as [|c rest]; [reflexivity|].
  intros Hc. rewrite (stripPrefix_nondigit c rest Hc). simpl.
  destruct (JsNumber.digitValue c) as [d|] eqn:Hd; [|reflexivity].
  pose proof (digitValue_nondigit c d Hc Hd) as Hge.
  destruct (Z.ltb_spec d 10); [lia|reflexivity].
Qed.

(** C10. In the advanced variant the settle delay is [parseInt] of the raw
    [waitTime] parameter: the query value when it is a non-empty string,
    else the body value when it is truthy, else ['5000']. When that raw
    string does not begin with an integer the delay is [NaN]; and whatever
    the delay is, it is what [page.waitForTimeout] is called with: an
    extraction is always preceded by [waitForTimeout(waitTime)], with no
    check in between. *)
Theorem waitTime_is_unchecked_parseInt (req : Request) :
  (forall s, query req !! "waitTime" = Some s -> s <> EmptyString ->
     waitTime req = JsNumber.parseInt s) /\
  (forall value,
     query req !! "waitTime" = None \/ query req !! "waitTime" = Some EmptyString ->
     Json.member (body req) "waitTime" = Some value ->
     Json.truthy (Some value) = true ->
     waitTime req = JsNumber.parseInt (Json.toString value)) /\
  (query req !! "waitTime" = None \/ query req !! "waitTime" = Some EmptyString ->
   Json.truthy (Json.member (body req) "waitTime") = false ->
   waitTime req = Num 5000) /\
  (beginsWithInteger (Json.toStringOpt (rawWaitTime req)) = false -> waitTime req = NaN) /\
  (forall w ms, In (WaitForTimeout ms) (traceOf (fetchLichessGameAdvanced w req)) ->
     ms = waitTime req) /\
  (forall w, In EvaluateExtraction (traceOf (fetchLichessGameAdvanced w req)) ->
     In (WaitForTimeout (waitTime req)) (traceOf (fetchLichessGameAdvanced w req))).
Proof.
  repeat apply conj.
  - intros s Hq Hs. unfold waitTime, rawWaitTime, param, Json.or_else.
    rewrite Hq. destruct s; [congruence|reflexivity].
  - intros value Hq Hb Ht. unfold waitTime, rawWaitTime, param, Json.or_else.
    destruct Hq as [-> | ->]; simpl; rewrite Hb, Ht; reflexivity.
  - intros Hq Hb. unfold waitTime, rawWaitTime, param, Json.or_else.
    destruct Hq as [-> | ->]; simpl; rewrite Hb; reflexivity.
  - apply parseInt_without_integer.
  - intros w ms. unfold_handler.
    destruct (String.eqb (method req) "OPTIONS"); simpl; [intuition congruence|].
    destruct (Json.truthy (param req "gameId")); simpl; [|intuition congruence].
    split_script req; repeat split_outcome; intuition congruence.
  - intros w. unfold_handler.
    destruct (String.eqb (method req) "OPTIONS"); simpl; [intuition congruence|].
    destruct (Json.truthy (param req "gameId")); simpl; [|intuition congruence].
    split_script req; repeat split_outcome; intuition congruence.
Qed.

Lemma waitTime_is_unchecked_parseInt_witness :
  beginsWithInteger (Json.toStringOpt (rawWaitTime Sample.postScript)) = false /\
  waitTime Sample.postScript = NaN /\
  In (WaitForTimeout NaN)
     (traceOf (fetchLichessGameAdvanced Sample.renderer Sample.postScript)).
Proof.
  pose proof (waitTime_is_unchecked_parseInt Sample.postScript)
    as (_ & _ & _ & Hnan & _ & Hreached).
  assert (Hraw : beginsWithInteger (Json.toStringOpt (rawWaitTime Sample.postScript)) = false)
    by reflexivity.
  split; [exact Hraw|]. split; [exact (Hnan Hraw)|].
  rewrite <- (Hnan Hraw). apply (Hreached Sample.renderer).
  vm_compute. tauto.
Defined.

(** ** Injection of the caller's script *)




(** ** What the handler does to the extracted data *)

Lemma basic_evaluate_leaves_htmlLength_unset p gameData :
  Basic.evaluate p = Ok gameData -> Basic.htmlLength gameData = None.
Proof.
  unfold Basic.evaluate, mbind, result_bind, mret, result_ret.
  repeat split_outcome; intros [= <-]; reflexivity.
Qed.

(** C9, as amended. The [data] of a response is the object the single
    in-page evaluation returned: unchanged in the advanced variant; in the
    basic variant with the one property [htmlLength], which the evaluation
    never sets, assigned by the handler from [page.content()], and every
    other property unchanged. *)
Theorem response_data_is_the_evaluation_result
    (v : variant) (w : Renderer) (req : Request) (sent : data) :
  In sent (sentData (traceOf (handler v w req))) ->
  match v with
  | AdvancedVariant =>
      exists page gameData,
        page_snapshot w = Ok page /\
        Advanced.evaluate page = Ok gameData /\
        sent = AdvancedData gameData
  | BasicVariant =>
      exists page gameData html,
        page_snapshot w = Ok page /\
        Basic.evaluate page = Ok gameData /\
        page_content w = Ok html /\
        Basic.htmlLength gameData = None /\
        sent = BasicData
                 {| Basic.pageInitData := Basic.pageInitData gameData;
                    Basic.extensionData := Basic.extensionData gameData;
                    Basic.additionalData := Basic.additionalData gameData;
                    Basic.htmlLength := Some (String.length html) |}
  end.
Proof.
  destruct v; unfold handler; unfold_handler;
    (destruct (String.eqb (method req) "OPTIONS"); simpl; [tauto|]);
    (destruct (Json.truthy (param req "gameId")); simpl; [|tauto]).
  - repeat split_outcome; try tauto.
    all: try (destruct (param req "gameId"); simpl; tauto).
    all: destruct (page_snapshot w) as [page|] eqn:Hpage; [|discriminate];
      simpl in *; destruct (param req "gameId"); simpl; intros [<-|[]];
      eexists _, _, _; repeat split; eauto using basic_evaluate_leaves_htmlLength_unset.
  - split_script req; repeat split_outcome; try tauto.
    all: try (destruct (param req "gameId"); simpl; tauto).
    all: destruct (page_snapshot w) as [page|] eqn:Hpage; [|discriminate];
      simpl in *; destruct (param req "gameId"); simpl; intros [<-|[]];
      eexists _, _; repeat split; eauto.
Qed.

Lemma response_data_is_the_evaluation_result_witness :
  exists page gameData sent,
    page_snapshot Sample.renderer = Ok page /\
    Advanced.evaluate page = Ok gameData /\
    sentData (traceOf (handler AdvancedVariant Sample.renderer Sample.getGame)) = [sent] /\
    sent = AdvancedData gameData.
Proof.
  destruct (sentData (traceOf (handler AdvancedVariant Sample.renderer Sample.getGame)))
    as [|sent rest] eqn:Hsent; [vm_compute in Hsent; discriminate Hsent|].
  destruct rest; [|vm_compute in Hsent; discriminate Hsent].
  destruct (response_data_is_the_evaluation_result AdvancedVariant Sample.renderer
              Sample.getGame sent)
    as (page & gameData & Hpage & Heval & Hdata).
  - rewrite Hsent. left. reflexivity.
  - exists page, gameData, sent. repeat split; assumption.
Defined.

(** C9, counterexample to the claim as written. In the basic variant the
    handler changes the object after the evaluation has returned it: the
    evaluation's result has no [htmlLength], the [data] sent has
    [htmlLength: 13]. *)
Lemma basic_handler_assigns_htmlLength_after_evaluation :
  exists gameData,
    Basic.evaluate Sample.page = Ok gameData /\
    Basic.htmlLength gameData = None /\
    sentData (traceOf (fetchLichessGame Sample.renderer Sample.getGame))
    = [BasicData (setHtmlLength 13 gameData)] /\
    sentData (traceOf (fetchLichessGame Sample.renderer Sample.getGame))
    <> [BasicData gameData].
Proof.
  eexists. split; [vm_compute; reflexivity|].
  split; [reflexivity|]. split; [vm_compute; reflexivity|].
  vm_compute. intros H. discriminate H.
Qed.

(** ** The extraction scripts: truncation *)

Ltac unfold_evaluate :=
  unfold Basic.evaluate, Advanced.evaluate, mbind, result_bind, mret, result_ret,
    fmap, result_fmap.

Lemma foldl_invariant {A B} (P : A -> Prop) (f : A -> B -> A) (l : list B) (a : A) :
  P a -> (forall acc x, P acc -> P (f acc x)) -> P (foldl f a l).
Proof.
  intros Ha Hstep. revert a Ha.
  induction l as [|x l IH]; intros a Ha; simpl; [exact Ha|].
  apply IH, Hstep, Ha.
Qed.

Lemma String_substring_length (a m : nat) (s : string) :
  String.length (String.substring a m s) <= m.
Proof.
  revert a m. induction s as [|c s IH]; intros a m.
  - destruct a, m; simpl; lia.
  - destruct a as [|a].
    + destruct m as [|m]; simpl; [lia|]. specialize (IH 0 m). lia.
    + simpl. apply IH.
Qed.

Lemma substring_from_start_length (s : string) (n : nat) :
  String.length (JsString.substring s 0 n) <= n.
Proof.
  unfold JsString.substring.
  etransitivity; [apply String_substring_length|]. lia.
Qed.

Lemma mapIfAny_Forall {A B} (P : B -> Prop) (f : A -> B) (l : list A) (out : list B) :
  (forall x, P (f x)) -> mapIfAny f l = Some out -> Forall P out.
Proof.
  intros HP. unfold mapIfAny. destruct (Nat.ltb 0 (length l)); [|discriminate].
  intros [= <-]. apply Forall_forall. intros y Hy.
  apply list_elem_of_In, in_map_iff in Hy as (x & <- & _). apply HP.
Qed.

Lemma recordSelector_capped (p : Page) (found : gmap string (list Advanced.ElementEntry))
    (selector : string) :
  map_Forall (fun _ entries =>
                Forall (fun e => String.length (Advanced.text e) <= 300) entries) found ->
  map_Forall (fun _ entries =>
                Forall (fun e => String.length (Advanced.text e) <= 300) entries)
             (Advanced.recordSelector p found selector).
Proof.
  intros Hfound. unfold Advanced.recordSelector, try_catch, mbind, result_bind, mret, result_ret.
  destruct (document_querySelectorAll p selector) as [elements|]; [|exact Hfound].
  destruct (Nat.ltb 0 (length elements)); [|exact Hfound].
  apply map_Forall_insert_2; [|exact Hfound].
  apply Forall_forall. intros e He.
  apply list_elem_of_In, in_map_iff in He as (el & <- & _).
  apply substring_from_start_length.
Qed.

(** C2. Every entry the custom-selector scan records carries a text of at
    most 500 characters, whatever the length of the element's text: the
    basic variant keeps the first 500 characters ([textContent]), the
    advanced variant the first 300 ([text]). *)
Theorem custom_selector_text_is_capped (p : Page) :
  (forall gameData elements,
     Basic.evaluate p = Ok gameData ->
     Basic.extensionElements (Basic.additionalData gameData) = Some elements ->
     Forall (fun e => String.length (Basic.textContent e) <= 500) elements) /\
  (forall gameData key entries,
     Advanced.evaluate p = Ok gameData ->
     Advanced.bySelector (Advanced.dom gameData) !! key = Some entries ->
     Forall (fun e => String.length (Advanced.text e) <= 500) entries).
Proof.
  split.
  - intros gameData elements. unfold_evaluate.
    repeat split_outcome; intros [= <-]; simpl.
    apply mapIfAny_Forall. intros el. apply substring_from_start_length.
  - intros gameData key entries. unfold_evaluate.
    repeat split_outcome; intros [= <-]; simpl. intros Hkey.
    assert (Hcap : map_Forall (fun _ entries =>
              Forall (fun e => String.length (Advanced.text e) <= 300) entries)
              (foldl (Advanced.recordSelector p) ∅ Advanced.extensionSelectors)).
    { apply foldl_invariant; [apply map_Forall_empty|]. intros acc x. apply recordSelector_capped. }
    specialize (Hcap key entries Hkey).
    eapply Forall_impl; [exact Hcap|]. simpl. intros e He. lia.
Qed.

Lemma custom_selector_text_is_capped_witness :
  exists gameData elements entries,
    Basic.evaluate Sample.longPage = Ok gameData /\
    Basic.extensionElements (Basic.additionalData gameData) = Some elements /\
    length elements = 1 /\
    Forall (fun e => String.length (Basic.textContent e) <= 500) elements /\
    (exists advancedData,
       Advanced.evaluate Sample.longPage = Ok advancedData /\
       Advanced.bySelector (Advanced.dom advancedData) !! "data-extension" = Some entries) /\
    length entries = 1 /\
    Forall (fun e => String.length (Advanced.text e) <= 500) entries.
Proof.
  destruct (Basic.evaluate Sample.longPage) as [gameData|] eqn:Hbasic;
    [|vm_compute in Hbasic; discriminate Hbasic].
  destruct (Advanced.evaluate Sample.longPage) as [advancedData|] eqn:Hadvanced;
    [|vm_compute in Hadvanced; discriminate Hadvanced].
  destruct (Basic.extensionElements (Basic.additionalData gameData))
    as [elements|] eqn:Helements;
    [|vm_compute in Hbasic; injection Hbasic as <-; discriminate Helements].
  destruct (Advanced.bySelector (Advanced.dom advancedData) !! "data-extension")
    as [entries|] eqn:Hentries;
    [|vm_compute in Hadvanced; injection Hadvanced as <-; vm_compute in Hentries;
      discriminate Hentries].
  exists gameData, elements, entries.
  pose proof (custom_selector_text_is_capped Sample.longPage) as [Hb Ha].
  repeat split.
  - exact Helements.
  - vm_compute in Hbasic. injection Hbasic as <-. injection Helements as <-. reflexivity.
  - exact (Hb gameData elements Hbasic Helements).
  - exists advancedData. split; [reflexivity|exact Hentries].
  - vm_compute in Hadvanced. injection Hadvanced as <-. vm_compute in Hentries.
    injection Hentries as <-. reflexivity.
  - exact (Ha advancedData "data-extension" entries Hadvanced Hentries).
Defined.

(** ** The extraction scripts: the structured payload *)

Lemma basic_payload_frame (p : Page) (other : option Dom.Element) :
  payloadAbsentOrInvalid p ->
  Basic.evaluate p
  = basicWithPageInitData JNull <$> Basic.evaluate (withPageInitScript other p).
Proof.
  intros [Hnone|(el & e & Hel & Hparse)]; unfold_evaluate; simpl.
  - rewrite Hnone. simpl. repeat split_outcome; reflexivity.
  - rewrite Hel. simpl. rewrite Hparse. simpl. repeat split_outcome; reflexivity.
Qed.

Lemma advanced_payload_frame (p : Page) (other : option Dom.Element) :
  payloadAbsentOrInvalid p ->
  Advanced.evaluate p
  = advancedWithPageInitData JNull <$> Advanced.evaluate (withPageInitScript other p).
Proof.
  intros [Hnone|(el & e & Hel & Hparse)]; unfold_evaluate; simpl.
  - rewrite Hnone. simpl. repeat split_outcome; reflexivity.
  - rewrite Hel. simpl. rewrite Hparse. simpl. repeat split_outcome; reflexivity.
Qed.

(** C6. When the payload script element is absent, or its content is not
    valid JSON, [pageInitData] of the returned object is [null], in both
    variants; and the evaluation is otherwise exactly what it would be with
    any other payload script (or none) in the page: it throws in the same
    cases, and returns the same object but for [pageInitData]. *)
Theorem absent_or_invalid_payload_leaves_null (p : Page) :
  payloadAbsentOrInvalid p ->
  (forall gameData, Basic.evaluate p = Ok gameData -> Basic.pageInitData gameData = JNull) /\
  (forall gameData,
     Advanced.evaluate p = Ok gameData -> Advanced.pageInitData gameData = JNull) /\
  (forall other,
     Basic.evaluate p
     = basicWithPageInitData JNull <$> Basic.evaluate (withPageInitScript other p)) /\
  (forall other,
     Advanced.evaluate p
     = advancedWithPageInitData JNull <$> Advanced.evaluate (withPageInitScript other p)).
Proof.
  intros Hp. repeat apply conj.
  - intros gameData. rewrite (basic_payload_frame p None Hp).
    destruct (Basic.evaluate (withPageInitScript None p)); simpl; [|discriminate].
    intros [= <-]. reflexivity.
  - intros gameData. rewrite (advanced_payload_frame p None Hp).
    destruct (Advanced.evaluate (withPageInitScript None p)); simpl; [|discriminate].
    intros [= <-]. reflexivity.
  - intros other. apply basic_payload_frame, Hp.
  - intros other. apply advanced_payload_frame, Hp.
Qed.

Lemma absent_or_invalid_payload_leaves_null_witness :
  payloadAbsentOrInvalid Sample.brokenPayloadPage /\
  Advanced.pageInitData <$> Advanced.evaluate Sample.brokenPayloadPage = Ok JNull /\
  Basic.evaluate Sample.brokenPayloadPage
  = basicWithPageInitData JNull
      <$> Basic.evaluate (withPageInitScript (Some (Sample.payloadScript "{}"))
                            Sample.brokenPayloadPage).
Proof.
  assert (Hp : payloadAbsentOrInvalid Sample.brokenPayloadPage).
  { right. exists (Sample.payloadScript "{oops"), Sample.boom. split; reflexivity. }
  pose proof (absent_or_invalid_payload_leaves_null Sample.brokenPayloadPage Hp)
    as (_ & Hnull & Hframe & _).
  split; [exact Hp|]. split; [|apply Hframe].
  destruct (Advanced.evaluate Sample.brokenPayloadPage) as [gameData|] eqn:Heval.
  - simpl. f_equal. apply Hnull. reflexivity.
  - vm_compute in Heval. discriminate Heval.
Defined.

(** ** The extraction scripts: the scan of the global object *)

(** A loop body that records at most the entry of the key it is given, and
    decides it from that key alone. *)
Section KeyedFold.

Context {V : Type} (f : gmap string V -> string -> gmap string V).

Hypothesis keyed : forall acc k key,
  f acc k !! key
  = if decide (k = key) then from_option Some (acc !! key) (f ∅ k !! k) else acc !! key.

Lemma foldl_keyed_lookup (keys : list string) (acc : gmap string V) (key : string) :
  foldl f acc keys !! key
  = if bool_decide (key ∈ keys)
    then from_option Some (acc !! key) (f ∅ key !! key)
    else acc !! key.
Proof.
  revert acc. induction keys as [|k keys IH]; intros acc; simpl.
  - reflexivity.
  - rewrite IH, keyed.
    destruct (decide (k = key)) as [->|Hne].
    + rewrite (bool_decide_eq_true_2 (key ∈ key :: keys)) by apply list_elem_of_here.
      destruct (bool_decide (key ∈ keys)); destruct (f ∅ key !! key); reflexivity.
    + destruct (bool_decide (key ∈ keys)) eqn:Hin.
      * apply bool_decide_eq_true_1 in Hin.
        rewrite (bool_decide_eq_true_2 (key ∈ k :: keys))
          by (apply list_elem_of_further, Hin).
        reflexivity.
      * apply bool_decide_eq_false_1 in Hin.
        rewrite (bool_decide_eq_false_2 (key ∈ k :: keys))
          by (apply not_elem_of_cons; split; [congruence|exact Hin]).
        reflexivity.
Qed.

Lemma foldl_keyed_from_empty (keys : list string) (key : string) :
  foldl f ∅ keys !! key = if bool_decide (key ∈ keys) then f ∅ key !! key else None.
Proof.
  rewrite foldl_keyed_lookup, lookup_empty.
  destruct (bool_decide (key ∈ keys)); [|reflexivity].
  destruct (f ∅ key !! key); reflexivity.
Qed.

End KeyedFold.


Lemma advanced_recordValue_keyed (p : Page) (acc : gmap string Advanced.entry)
    (k key : string) :
  Advanced.recordValue p acc k !! key
  = if decide (k = key)
    then from_option Some (acc !! key) (Advanced.recordValue p ∅ k !! k)
    else acc !! key.
Proof.
  unfold Advanced.recordValue, try_catch, mbind, result_bind, mret, result_ret.
  destruct (window_get p k) as [value|];
    [destruct (negb (Advanced.isNullish value));
     [destruct (String.eqb (typeof value) "object");
      [destruct (JSON_stringify p value) as [text|];
       [destruct (JSON_parse p (default "undefined" text))|]
      |destruct (String.eqb (typeof value) "function");
       [destruct (Advanced.functionSource value)|]]|]|];
    destruct (decide (k = key)) as [->|Hne]; simpl;
    rewrite ?lookup_insert_eq, ?lookup_insert_ne, ?lookup_empty by assumption;
    reflexivity.
Qed.

Lemma filter_elem_of (keep : string -> bool) (keys : list string) (key : string) :
  bool_decide (key ∈ List.filter keep keys) = bool_decide (key ∈ keys) && keep key.
Proof.
  destruct (bool_decide (key ∈ keys)) eqn:Hin; simpl.
  - apply bool_decide_eq_true_1 in Hin. destruct (keep key) eqn:Hkeep.
    + apply bool_decide_eq_true_2, list_elem_of_In, filter_In.
      split; [apply list_elem_of_In, Hin|exact Hkeep].
    + apply bool_decide_eq_false_2. intros Hk. apply list_elem_of_In, filter_In in Hk.
      destruct Hk. congruence.
  - apply bool_decide_eq_false_1 in Hin.
    apply bool_decide_eq_false_2. intros Hk. apply list_elem_of_In, filter_In in Hk.
    apply Hin, list_elem_of_In, Hk.
Qed.


(** The entry of [key] after the advanced scan: decided by [key] alone. *)
Lemma advanced_scan_entry (p : Page) (keys : list string) (gameData : Advanced.GameData)
    (key : string) :
  Object_keys_window p = Ok keys ->
  Advanced.evaluate p = Ok gameData ->
  Advanced.extensionData gameData !! key
  = if bool_decide (key ∈ keys) && Advanced.interesting key
    then Advanced.recordValue p ∅ key !! key
    else None.
Proof.
  intros Hkeys. unfold_evaluate. rewrite Hkeys.
  repeat split_outcome; intros [= <-]. simpl.
  rewrite <- filter_elem_of.
  apply (foldl_keyed_from_empty _ (advanced_recordValue_keyed p)).
Qed.




(** ** The extraction scripts: which faults stay inside their probe *)
















(** * Further properties of the handlers *)


(** X1. Every run starts by setting the CORS header, and sends at most one
    response, with status 204, 400, 200 or 500. *)
Theorem every_run_sets_cors_and_answers_at_most_once
    (v : variant) (w : Renderer) (req : Request) :
  (exists rest,
     traceOf (handler v w req) = SetHeader "Access-Control-Allow-Origin" "*" :: rest) /\
  length (statuses (traceOf (handler v w req))) <= 1 /\
  Forall (fun status => In status [204; 400; 200; 500])
         (statuses (traceOf (handler v w req))).
Proof.
  destruct v; unfold handler; unfold_handler;
    (destruct (String.eqb (method req) "OPTIONS"); simpl;
     [split; [eexists; reflexivity|split; [simpl; lia|repeat constructor; simpl; tauto]]|]);
    (destruct (Json.truthy (param req "gameId")); simpl;
     [|split; [eexists; reflexivity|split; [simpl; lia|repeat constructor; simpl; tauto]]]).
  - repeat split_outcome;
      (split; [eexists; reflexivity|split; [simpl; lia|repeat constructor; simpl; tauto]]).
  - split_script req; repeat split_outcome;
      (split; [eexists; reflexivity|split; [simpl; lia|repeat constructor; simpl; tauto]]).
Qed.

(** X2. An [OPTIONS] request is answered with the preflight headers and an empty
    204, whatever else it carries and whatever the browser would do. *)
Theorem preflight_answers_without_looking (v : variant) (w : Renderer) (req : Request) :
  method req = "OPTIONS" ->
  traceOf (handler v w req)
  = [SetHeader "Access-Control-Allow-Origin" "*";
     SetHeader "Access-Control-Allow-Methods" "GET, POST";
     SetHeader "Access-Control-Allow-Headers" "Content-Type";
     SetHeader "Access-Control-Max-Age" "3600";
     Respond 204 (Send EmptyString)] /\
  returns (handler v w req) = true.
Proof.
  intros Hm. destruct v; unfold handler; unfold_handler; rewrite Hm; simpl; split; reflexivity.
Qed.

Lemma preflight_answers_without_looking_witness :
  statuses (traceOf (handler AdvancedVariant Sample.brokenScriptRenderer
                       {| method := "OPTIONS";
                          query := {[ "gameId" := "abc" ]};
                          body := body Sample.postScript |})) = [204].
Proof.
  pose proof (preflight_answers_without_looking AdvancedVariant Sample.brokenScriptRenderer
                {| method := "OPTIONS"; query := {[ "gameId" := "abc" ]};
                   body := body Sample.postScript |} eq_refl) as [Htrace _].
  rewrite Htrace. reflexivity.
Defined.



Ltac split_injection req :=
  unfold traceOf, H.run, fetchLichessGameAdvanced, injection; cbv zeta;
  let script := fresh "script" in
  destruct (Json.member (body req) "customScript") as [script|];
  [destruct (Json.truthy (Some script))|].

(** X4. The calls a run makes on the browser are an initial part of the fixed
    plan (launch, page, user agent, navigation, injection if any, settle
    delay, extraction and, in the basic variant, page content): none is
    skipped or reordered; and a run answered with 200 has made them all. *)
Theorem browser_calls_follow_the_plan (v : variant) (w : Renderer) (req : Request) :
  browserSteps (traceOf (handler v w req)) `prefix_of` plan v req /\
  (In 200 (statuses (traceOf (handler v w req))) ->
   browserSteps (traceOf (handler v w req)) = plan v req).
Proof.
  destruct v; unfold handler, plan.
  - unfold_handler.
    (destruct (String.eqb (method req) "OPTIONS"); simpl;
     [split; [apply prefix_nil|intuition discriminate]|]);
    (destruct (Json.truthy (param req "gameId")); simpl;
     [|split; [apply prefix_nil|intuition discriminate]]).
    repeat split_outcome;
      (split; [eexists; reflexivity|simpl; intuition discriminate]).
  - split_injection req; unfold_handler;
      (destruct (String.eqb (method req) "OPTIONS"); simpl;
       [split; [apply prefix_nil|intuition discriminate]|]);
      (destruct (Json.truthy (param req "gameId")); simpl;
       [|split; [apply prefix_nil|intuition discriminate]]);
      repeat split_outcome;
      (split; [eexists; reflexivity|simpl; intuition discriminate]).
Qed.

(** X5. When the browser cannot be launched nothing is closed and no other call
    is made on it; the handler still returns. *)
Theorem failed_launch_is_not_closed
    (v : variant) (w : Renderer) (req : Request) (e : Error) :
  puppeteer_launch w = Throw e ->
  closes (traceOf (handler v w req)) = 0 /\
  browserSteps (traceOf (handler v w req)) `prefix_of` [Launch] /\
  returns (handler v w req) = true.
Proof.
  intros Hlaunch. destruct v; unfold handler; unfold_handler; rewrite Hlaunch;
    (destruct (String.eqb (method req) "OPTIONS"); simpl;
     [repeat split; apply prefix_nil|]);
    (destruct (Json.truthy (param req "gameId")); simpl;
     [|repeat split; apply prefix_nil]);
    (repeat split; eexists; reflexivity).
Qed.

Lemma failed_launch_is_not_closed_witness :
  closes (traceOf (handler AdvancedVariant Fixture.noBrowser Sample.postScript)) = 0 /\
  statuses (traceOf (handler AdvancedVariant Fixture.noBrowser Sample.postScript)) = [500].
Proof.
  destruct (failed_launch_is_not_closed AdvancedVariant Fixture.noBrowser Sample.postScript
              Sample.boom eq_refl) as (Hcloses & _ & _).
  split; [exact Hcloses|vm_compute; reflexivity].
Defined.

(** X6. The basic handler never evaluates a caller's script and always waits
    3000 ms, whatever [customScript] and [waitTime] the request carries; the
    advanced handler evaluates nothing when [customScript] is missing or
    falsy. *)
Theorem injection_and_delay_are_advanced_only (w : Renderer) (req : Request) :
  List.filter isInjection (traceOf (fetchLichessGame w req)) = [] /\
  (forall ms, In (WaitForTimeout ms) (traceOf (fetchLichessGame w req)) -> ms = Num 3000) /\
  (Json.truthy (Json.member (body req) "customScript") = false ->
   List.filter isInjection (traceOf (fetchLichessGameAdvanced w req)) = []).
Proof.
  repeat apply conj.
  - unfold_handler.
    destruct (String.eqb (method req) "OPTIONS"); simpl; [reflexivity|].
    destruct (Json.truthy (param req "gameId")); simpl; [|reflexivity].
    repeat split_outcome; reflexivity.
  - intros ms. unfold_handler.
    destruct (String.eqb (method req) "OPTIONS"); simpl; [intuition discriminate|].
    destruct (Json.truthy (param req "gameId")); simpl; [|intuition discriminate].
    repeat split_outcome; intuition congruence.
  - intros Hfalsy. unfold traceOf, H.run, fetchLichessGameAdvanced. cbv zeta.
    destruct (Json.member (body req) "customScript") as [script|];
      [rewrite Hfalsy|]; unfold_handler;
      (destruct (String.eqb (method req) "OPTIONS"); simpl; [reflexivity|]);
      (destruct (Json.truthy (param req "gameId")); simpl; [|reflexivity]);
      repeat split_outcome; reflexivity.
Qed.



(** * Further properties of the extraction scripts *)

(** X8. The extraction throws exactly when one of its unguarded queries does,
    and then with the error of the first of them; no fault of a guarded
    operation ever makes it throw. *)
Theorem extraction_throws_with_its_first_unguarded_fault (p : Page) :
  thrown (Basic.evaluate p) = firstError (unguardedQueries BasicVariant p) /\
  thrown (Advanced.evaluate p) = firstError (unguardedQueries AdvancedVariant p).
Proof.
  split; unfold unguardedQueries, fixedQueries, forget; unfold_evaluate; simpl;
    repeat split_outcome; reflexivity.
Qed.

Lemma recordItem_keyed (p : Page) (acc : gmap string (option string)) (k key : string) :
  Advanced.recordItem p acc k !! key
  = if decide (k = key)
    then from_option Some (acc !! key) (Advanced.recordItem p ∅ k !! k)
    else acc !! key.
Proof.
  unfold Advanced.recordItem, try_catch, mbind, result_bind, mret, result_ret.
  destruct (localStorage_getItem p k) as [value|]; [destruct (Advanced.storageMatches k)|];
    destruct (decide (k = key)) as [->|Hne]; simpl;
    rewrite ?lookup_insert_eq, ?lookup_insert_ne, ?lookup_empty by assumption;
    reflexivity.
Qed.

Lemma recordItem_stored (p : Page) (key : string) :
  Advanced.recordItem p ∅ key !! key = stored p key.
Proof.
  unfold Advanced.recordItem, stored, try_catch, mbind, result_bind, mret, result_ret.
  destruct (localStorage_getItem p key) as [value|];
    destruct (Advanced.storageMatches key);
    rewrite ?lookup_insert_eq, ?lookup_empty; reflexivity.
Qed.

(** X9. The storage fragment of the advanced variant holds exactly the items
    whose key matches the keyword filter and can be read, each with the value
    read; it is empty when the storage cannot be enumerated. *)
Theorem storage_scan_keeps_the_matching_items (p : Page) (gameData : Advanced.GameData) :
  Advanced.evaluate p = Ok gameData ->
  (throws (Object_keys_localStorage p) = true -> Advanced.localStorage gameData = ∅) /\
  (forall keys key,
     Object_keys_localStorage p = Ok keys ->
     Advanced.localStorage gameData !! key
     = if bool_decide (key ∈ keys) then stored p key else None).
Proof.
  unfold_evaluate. repeat split_outcome; intros [= <-]; simpl;
    unfold Advanced.scanStorage, try_catch, mbind, result_bind, mret, result_ret.
  split.
  - intros Hthrow. destruct (Object_keys_localStorage p); [discriminate Hthrow|reflexivity].
  - intros keys key ->.
    rewrite (foldl_keyed_from_empty _ (recordItem_keyed p)), recordItem_stored. reflexivity.
Qed.

Lemma storage_scan_keeps_the_matching_items_witness :
  exists gameData,
    Advanced.evaluate Sample.page = Ok gameData /\
    Advanced.localStorage gameData !! "lichess.theme" = Some (Some "dark") /\
    Advanced.localStorage gameData !! "volume" = None.
Proof.
  destruct (Advanced.evaluate Sample.page) as [gameData|] eqn:Heval;
    [|vm_compute in Heval; discriminate Heval].
  exists gameData.
  destruct (storage_scan_keeps_the_matching_items Sample.page gameData Heval) as [_ Hitems].
  split; [reflexivity|].
  split; rewrite (Hitems ["lichess.theme"; "volume"] _ eq_refl); reflexivity.
Defined.

Lemma foldl_collectJson (p : Page) (scripts : list Dom.Element) (acc : list json) :
  foldl (Advanced.collectJson p) acc scripts = (acc ++ omap (inlineJson p) scripts)%list.
Proof.
  revert acc. induction scripts as [|script scripts IH]; intros acc; simpl.
  - rewrite app_nil_r. reflexivity.
  - rewrite IH. unfold Advanced.collectJson, inlineJson, try_catch, mbind, result_bind.
    destruct (JsString.startsWith (JsString.trim (Dom.textContent script)) "{"
              || JsString.startsWith (JsString.trim (Dom.textContent script)) "[");
      [|reflexivity].
    destruct (JSON_parse p (JsString.trim (Dom.textContent script))); simpl;
      [rewrite <- app_assoc|]; reflexivity.
Qed.

(** X10. [jsonScripts] lists, in document order, the parsed content of every
    inline script whose trimmed content starts with a brace or a bracket and
    is valid JSON; the others are skipped, and the key is absent when none
    is left. *)
Theorem inline_json_scan_keeps_order_and_skips_failures
    (p : Page) (gameData : Advanced.GameData) (scripts : list Dom.Element) :
  Advanced.evaluate p = Ok gameData ->
  document_querySelectorAll p "script:not([src])" = Ok scripts ->
  Advanced.jsonScripts (Advanced.computedData gameData)
  = match omap (inlineJson p) scripts with
    | [] => None
    | found => Some found
    end.
Proof.
  unfold_evaluate. intros Heval Hscripts. rewrite Hscripts in Heval. revert Heval.
  repeat split_outcome; intros [= <-]; simpl.
  rewrite foldl_collectJson. simpl.
  destruct (omap (inlineJson p) scripts); reflexivity.
Qed.

Lemma inline_json_scan_keeps_order_and_skips_failures_witness :
  exists gameData,
    Advanced.evaluate Fixture.scriptsPage = Ok gameData /\
    Advanced.jsonScripts (Advanced.computedData gameData)
    = Some [JObject []; JObject []].
Proof.
  destruct (Advanced.evaluate Fixture.scriptsPage) as [gameData|] eqn:Heval;
    [|vm_compute in Heval; discriminate Heval].
  exists gameData. split; [reflexivity|].
  rewrite (inline_json_scan_keeps_order_and_skips_failures Fixture.scriptsPage gameData
             _ Heval eq_refl).
  reflexivity.
Defined.

Lemma recordSelector_selected (p : Page) (found : gmap string (list Advanced.ElementEntry))
    (selector : string) :
  Advanced.recordSelector p found selector
  = match selected p selector with
    | Some entries => <[Advanced.selectorKey selector := entries]> found
    | None => found
    end.
Proof.
  unfold Advanced.recordSelector, selected, mapIfAny, try_catch, mbind, result_bind,
    mret, result_ret.
  destruct (document_querySelectorAll p selector) as [elements|]; [|reflexivity].
  destruct (Nat.ltb 0 (length elements)); reflexivity.
Qed.

Lemma foldl_recordSelector_other (p : Page) (selectors : list string)
    (found : gmap string (list Advanced.ElementEntry)) (key : string) :
  ~ In key (List.map Advanced.selectorKey selectors) ->
  foldl (Advanced.recordSelector p) found selectors !! key = found !! key.
Proof.
  revert found. induction selectors as [|s selectors IH]; intros found Hkey; simpl.
  - reflexivity.
  - rewrite IH by (intros Hin; apply Hkey; right; exact Hin).
    rewrite recordSelector_selected. destruct (selected p s); [|reflexivity].
    apply lookup_insert_ne. intros Heq. apply Hkey. left. exact Heq.
Qed.

Lemma foldl_recordSelector_own (p : Page) (selectors : list string)
    (found : gmap string (list Advanced.ElementEntry)) (selector : string) :
  List.NoDup (List.map Advanced.selectorKey selectors) ->
  In selector selectors ->
  foldl (Advanced.recordSelector p) found selectors !! Advanced.selectorKey selector
  = from_option Some (found !! Advanced.selectorKey selector) (selected p selector).
Proof.
  revert found. induction selectors as [|s selectors IH]; intros found Hnodup Hin; simpl.
  - contradiction.
  - apply List.NoDup_cons_iff in Hnodup as [Hfresh Hnodup].
    destruct Hin as [->|Hin].
    + rewrite foldl_recordSelector_other by exact Hfresh.
      rewrite recordSelector_selected. destruct (selected p selector); simpl;
        [apply lookup_insert_eq|reflexivity].
    + rewrite IH by assumption. rewrite recordSelector_selected.
      destruct (selected p s) as [entries|]; [|reflexivity].
      rewrite lookup_insert_ne; [reflexivity|].
      intros Heq. apply Hfresh. rewrite Heq. apply in_map, Hin.
Qed.

Lemma selector_keys_distinct :
  List.NoDup (List.map Advanced.selectorKey Advanced.extensionSelectors).
Proof.
  vm_compute. repeat (constructor; [simpl; intuition discriminate|]). constructor.
Qed.

Lemma advanced_bySelector_scan (p : Page) (gameData : Advanced.GameData) :
  Advanced.evaluate p = Ok gameData ->
  Advanced.bySelector (Advanced.dom gameData)
  = foldl (Advanced.recordSelector p) ∅ Advanced.extensionSelectors.
Proof.
  unfold_evaluate. repeat split_outcome; intros [= <-]; reflexivity.
Qed.

Lemma selector_scan_own (p : Page) (selector : string) :
  In selector Advanced.extensionSelectors ->
  foldl (Advanced.recordSelector p) ∅ Advanced.extensionSelectors
    !! Advanced.selectorKey selector
  = selected p selector.
Proof.
  intros Hin.
  pose proof (foldl_recordSelector_own p _ ∅ selector selector_keys_distinct Hin) as Hown.
  rewrite lookup_empty in Hown.
  etransitivity; [exact Hown|]. destruct (selected p selector); reflexivity.
Qed.

Lemma selector_scan_other (p : Page) (key : string) :
  ~ In key (List.map Advanced.selectorKey Advanced.extensionSelectors) ->
  foldl (Advanced.recordSelector p) ∅ Advanced.extensionSelectors !! key = None.
Proof.
  intros Hkey.
  pose proof (foldl_recordSelector_other p Advanced.extensionSelectors ∅ key Hkey) as Hother.
  rewrite lookup_empty in Hother. exact Hother.
Qed.

(** X11. Each of the seven extension selectors reports under its own key of
    [data.dom]: the entries of the elements it matches, in document order,
    when the query succeeds and matches any; and the scan adds no other
    key. *)
Theorem selector_scan_reports_each_selector_under_its_key
    (p : Page) (gameData : Advanced.GameData) :
  Advanced.evaluate p = Ok gameData ->
  (forall selector, In selector Advanced.extensionSelectors ->
     Advanced.bySelector (Advanced.dom gameData) !! Advanced.selectorKey selector
     = selected p selector) /\
  (forall key, ~ In key (List.map Advanced.selectorKey Advanced.extensionSelectors) ->
     Advanced.bySelector (Advanced.dom gameData) !! key = None).
Proof.
  intros Heval. rewrite (advanced_bySelector_scan p gameData Heval). split.
  - intros selector Hin. apply selector_scan_own, Hin.
  - intros key Hkey. apply selector_scan_other, Hkey.
Qed.

Lemma selector_scan_reports_each_selector_under_its_key_witness :
  exists gameData,
    Advanced.evaluate Sample.page = Ok gameData /\
    Advanced.bySelector (Advanced.dom gameData) !! "data-extension"
    = Some [Advanced.elementEntry Sample.banner] /\
    Advanced.bySelector (Advanced.dom gameData) !! "id=tool" = None.
Proof.
  destruct (Advanced.evaluate Sample.page) as [gameData|] eqn:Heval;
    [|vm_compute in Heval; discriminate Heval].
  exists gameData.
  destruct (selector_scan_reports_each_selector_under_its_key Sample.page gameData Heval)
    as [Hown _].
  split; [reflexivity|]. split.
  - apply (Hown "[data-extension]"). vm_compute. tauto.
  - pose proof (Hown ("[id*=" ++ JsString.dquote ++ "tool" ++ JsString.dquote ++ "]")
                     ltac:(vm_compute; tauto)) as Hlast.
    exact Hlast.
Defined.

Lemma mapIfAny_not_empty {A B} (f : A -> B) (l : list A) : mapIfAny f l <> Some [].
Proof.
  unfold mapIfAny. destruct l; simpl; discriminate.
Qed.

Lemma mapIfAny_length {A B} (f : A -> B) (l : list A) (out : list B) :
  mapIfAny f l = Some out -> length out = length l.
Proof.
  unfold mapIfAny. destruct (Nat.ltb 0 (length l)); [|discriminate].
  intros [= <-]. apply length_map.
Qed.

(** X12. A list fragment is left out rather than sent empty: whenever the move
    list, the players, the evaluations or analysis markers, the extension
    elements, the entries of a selector, the inline JSON or the move count is
    present, it is not empty (not zero). *)
Theorem list_fragments_are_absent_rather_than_empty (p : Page) :
  (forall gameData, Basic.evaluate p = Ok gameData ->
     Basic.moves (Basic.additionalData gameData) <> Some [] /\
     Basic.analysis (Basic.additionalData gameData) <> Some [] /\
     Basic.extensionElements (Basic.additionalData gameData) <> Some []) /\
  (forall gameData, Advanced.evaluate p = Ok gameData ->
     Advanced.moves (Advanced.dom gameData) <> Some [] /\
     Advanced.players (Advanced.dom gameData) <> Some [] /\
     Advanced.evaluations (Advanced.dom gameData) <> Some [] /\
     (forall key, Advanced.bySelector (Advanced.dom gameData) !! key <> Some []) /\
     Advanced.jsonScripts (Advanced.computedData gameData) <> Some [] /\
     Advanced.moveCount (Advanced.computedData gameData) <> Some 0).
Proof.
  split; intros gameData.
  - unfold_evaluate. repeat split_outcome; intros [= <-]; simpl.
    repeat split; apply mapIfAny_not_empty.
  - intros Heval.
    pose proof (advanced_bySelector_scan p gameData Heval) as Hscan.
    pose proof (selector_scan_own p) as Hown.
    pose proof (selector_scan_other p) as Hother.
    rewrite <- Hscan in Hown, Hother.
    assert (Hsel : forall key,
               Advanced.bySelector (Advanced.dom gameData) !! key <> Some []).
    { intros key.
      destruct (in_dec string_dec key
                  (List.map Advanced.selectorKey Advanced.extensionSelectors))
        as [Hin|Hout].
      - apply in_map_iff in Hin as (selector & <- & Hin).
        rewrite (Hown selector Hin). unfold selected.
        destruct (document_querySelectorAll p selector); [|discriminate].
        apply mapIfAny_not_empty.
      - rewrite (Hother key Hout). discriminate. }
    clear Hown Hother. revert Heval Hsel. unfold_evaluate.
    repeat split_outcome; intros [= <-] Hsel.
    cbn [Advanced.dom Advanced.computedData Advanced.moves Advanced.players
         Advanced.evaluations Advanced.jsonScripts Advanced.moveCount].
    repeat apply conj; try apply mapIfAny_not_empty.
    + exact Hsel.
    + match goal with
      | |- (if Nat.ltb 0 (length ?l) then _ else _) <> _ => destruct l; simpl; discriminate
      end.
    + match goal with
      | |- (if Nat.ltb 0 (length ?l) then _ else _) <> _ => destruct l; simpl; discriminate
      end.
Qed.

(** X13. In the basic variant [extensionData] is [null] exactly when no global
    name matches the filter; with a match it is an object, even when no
    value could be recorded. *)
Theorem basic_extensionData_is_null_without_matching_names
    (p : Page) (gameData : Basic.GameData) (keys : list string) :
  Basic.evaluate p = Ok gameData ->
  Object_keys_window p = Ok keys ->
  (Basic.extensionData gameData = None <->
   Forall (fun key => Basic.interesting key = false) keys).
Proof.
  unfold_evaluate. intros Heval Hkeys. rewrite Hkeys in Heval. revert Heval.
  repeat split_outcome; intros [= <-]; simpl. unfold Basic.scanWindow.
  assert (Hnil : List.filter Basic.interesting keys = []
                 <-> Forall (fun key => Basic.interesting key = false) keys).
  { clear. induction keys as [|k keys IH]; simpl.
    - split; [constructor|reflexivity].
    - destruct (Basic.interesting k) eqn:Hk; split; intros H.
      + discriminate H.
      + apply Forall_cons in H as [H _]. congruence.
      + constructor; [exact Hk|]. apply IH, H.
      + apply Forall_cons in H as [_ H]. apply IH, H. }
  rewrite <- Hnil.
  destruct (List.filter Basic.interesting keys); simpl; split; congruence.
Qed.

Lemma basic_extensionData_is_null_without_matching_names_witness :
  exists gameData,
    Basic.evaluate (withoutWindowKey "lichess"
                      (withoutWindowKey "__cycle" Sample.page)) = Ok gameData /\
    Basic.extensionData gameData = Some ∅.
Proof.
  destruct (Basic.evaluate (withoutWindowKey "lichess"
                              (withoutWindowKey "__cycle" Sample.page)))
    as [gameData|] eqn:Heval; [|vm_compute in Heval; discriminate Heval].
  exists gameData. split; [reflexivity|].
  pose proof (basic_extensionData_is_null_without_matching_names _ gameData
                ["__hook"; "frames"] Heval eq_refl) as [Hnull _].
  destruct (Basic.extensionData gameData) as [found|] eqn:Hfound.
  - vm_compute in Heval. injection Heval as <-. injection Hfound as <-. reflexivity.
  - specialize (Hnull eq_refl). apply Forall_cons in Hnull as [Hhook _].
    vm_compute in Hhook. discriminate Hhook.
Defined.

Lemma prefix_toLowerCase (search s : string) :
  String.prefix search s = true ->
  String.prefix (JsString.toLowerCase search) (JsString.toLowerCase s) = true.
Proof.
  revert s. induction search as [|a search IH]; intros s; simpl;
    [destruct s; reflexivity|].
  destruct s as [|b s]; simpl; [discriminate|].
  destruct (ascii_dec a b) as [->|Hne]; [|discriminate].
  intros Hrest. destruct (ascii_dec (JsString.lowerChar b) (JsString.lowerChar b));
    [apply IH, Hrest|congruence].
Qed.

Lemma includes_toLowerCase (s search : string) :
  JsString.includes s search = true ->
  JsString.includes (JsString.toLowerCase s) (JsString.toLowerCase search) = true.
Proof.
  induction s as [|c s IH]; simpl; intros H.
  - rewrite orb_false_r in H. rewrite orb_false_r.
    apply (prefix_toLowerCase search EmptyString H).
  - apply orb_true_iff in H as [H|H]; apply orb_true_iff.
    + left. apply (prefix_toLowerCase search (String c s) H).
    + right. apply IH, H.
Qed.

(** X14. Every global name the basic variant scans is scanned by the advanced
    variant too: its filter is the basic one made case-insensitive and
    extended. *)
Theorem advanced_filter_extends_basic_filter (key : string) :
  Basic.interesting key = true -> Advanced.interesting key = true.
Proof.
  unfold Basic.interesting, Advanced.interesting. intros H. cbv zeta.
  apply orb_true_iff in H as [H|H];
    [apply orb_true_iff in H as [H|H]; [apply orb_true_iff in H as [H|H]|]|].
  - apply includes_toLowerCase in H.
    change (JsString.toLowerCase "lichess") with "lichess" in H. rewrite H. reflexivity.
  - apply includes_toLowerCase in H.
    change (JsString.toLowerCase "extension") with "extension" in H. rewrite H.
    rewrite orb_true_r. reflexivity.
  - apply includes_toLowerCase in H.
    change (JsString.toLowerCase "chess") with "chess" in H. rewrite H.
    rewrite orb_true_r. reflexivity.
  - rewrite H. rewrite orb_true_r. reflexivity.
Qed.

Lemma advanced_filter_extends_basic_filter_witness :
  Basic.interesting "my_chess_board" = true /\
  Advanced.interesting "my_chess_board" = true /\
  Basic.interesting "ChessBoard" = false /\
  Advanced.interesting "ChessBoard" = true.
Proof.
  split; [reflexivity|].
  split; [apply (advanced_filter_extends_basic_filter "my_chess_board"); reflexivity|].
  split; reflexivity.
Defined.

Lemma advanced_evaluate_enumerates (p : Page) (gameData : Advanced.GameData) :
  Advanced.evaluate p = Ok gameData -> exists keys, Object_keys_window p = Ok keys.
Proof.
  unfold_evaluate.
  destruct (document_getElementById p "page-init-data"); [|discriminate].
  destruct (Object_keys_window p) as [keys|]; [|discriminate].
  intros _. exists keys. reflexivity.
Qed.

(** X15. A function found on the global object is recorded as a string of at
    most 200 characters. *)
Theorem recorded_function_source_is_capped
    (p : Page) (gameData : Advanced.GameData) (key : string) (source : result string)
    (entry : Advanced.entry) :
  Advanced.evaluate p = Ok gameData ->
  window_get p key = Ok (VFunction source) ->
  Advanced.extensionData gameData !! key = Some entry ->
  exists text, entry = Advanced.Plain (VString text) /\ String.length text <= 200.
Proof.
  intros Heval Hget.
  destruct (advanced_evaluate_enumerates p gameData Heval) as [keys Hkeys].
  rewrite (advanced_scan_entry p keys gameData key Hkeys Heval).
  destruct (bool_decide (key ∈ keys) && Advanced.interesting key); [|discriminate].
  unfold Advanced.recordValue, try_catch, mbind, result_bind, mret, result_ret.
  rewrite Hget. simpl. destruct source as [text|]; rewrite lookup_insert_eq; intros [= <-].
  - eexists. split; [reflexivity|]. apply substring_from_start_length.
  - eexists. split; [reflexivity|]. vm_compute. lia.
Qed.

Lemma recorded_function_source_is_capped_witness :
  exists gameData text,
    Advanced.evaluate Fixture.longFunctionPage = Ok gameData /\
    Advanced.extensionData gameData !! "_render" = Some (Advanced.Plain (VString text)) /\
    String.length text = 200.
Proof.
  destruct (Advanced.evaluate Fixture.longFunctionPage) as [gameData|] eqn:Heval;
    [|vm_compute in Heval; discriminate Heval].
  destruct (Advanced.extensionData gameData !! "_render") as [entry|] eqn:Hentry;
    [|vm_compute in Heval; injection Heval as <-; vm_compute in Hentry; discriminate Hentry].
  destruct (recorded_function_source_is_capped Fixture.longFunctionPage gameData "_render"
              (Ok (Sample.repeatChar "f" 300)) entry Heval eq_refl Hentry)
    as (text & -> & Hle).
  exists gameData, text. split; [reflexivity|]. split; [exact Hentry|].
  vm_compute in Heval. injection Heval as <-. vm_compute in Hentry.
  injection Hentry as <-. reflexivity.
Defined.

(** * The settle delay given as a number *)






(** ** The Apps Script client and organizer *)

Section AppsScriptFacts.

Import AppsScript.
Local Open Scope list_scope.

Lemma get_Ok (o : option json) (k : string) (v : option json) :
  get o k = Ok v -> v = Json.member o k /\ o <> None /\ o <> Some JNull.
Proof.
  destruct o as [[]|]; simpl; intros H; try discriminate; inversion H; repeat split; congruence.
Qed.

Lemma get_Some (j : json) (k : string) :
  j <> JNull -> get (Some j) k = Ok (Json.member (Some j) k).
Proof. destruct j; simpl; congruence. Qed.

Lemma falsy_has_no_member (o : option json) (k : string) :
  Json.truthy o = false -> Json.member o k = None.
Proof. destruct o as [[]|]; simpl; congruence. Qed.

Lemma indexed_snoc {A} (l : list A) (x : A) :
  indexed (l ++ [x]) = (indexed l ++ [(List.length l, x)])%list.
Proof. unfold indexed. rewrite imap_app. simpl. rewrite Nat.add_0_r. reflexivity. Qed.

Lemma lookup_snoc_other {A} (l : list A) (x : A) (k : nat) :
  k <> List.length l -> (l ++ [x]) !! k = l !! k.
Proof.
  intros Hk. destruct (decide (k < List.length l)) as [Hlt|Hge].
  - apply lookup_app_l. exact Hlt.
  - rewrite !lookup_ge_None_2; [reflexivity|lia|rewrite length_app; simpl; lia].
Qed.

Lemma lookup_snoc_last {A} (l : list A) (x : A) :
  (l ++ [x]) !! List.length l = Some x /\ l !! List.length l = None.
Proof.
  split.
  - rewrite lookup_app_r, Nat.sub_diag; [reflexivity|lia].
  - apply lookup_ge_None_2. lia.
Qed.

Lemma foldl_setClock (h : Host) (items : list json) (moves : list Move) :
  List.length (foldl (setClock h) moves (indexed items)) = List.length moves /\
  forall k, foldl (setClock h) moves (indexed items) !! k
            = match items !! k with
              | Some clock => withClock h clock <$> moves !! k
              | None => moves !! k
              end.
Proof.
  induction items as [|x l IH] using rev_ind.
  - split; [reflexivity|]. intros k. reflexivity.
  - destruct IH as [IHlen IH]. rewrite indexed_snoc, foldl_app. simpl. unfold setClock at 1 3. simpl.
    split.
    + rewrite length_alter. exact IHlen.
    + intros k. destruct (decide (k = List.length l)) as [->|Hk].
      * rewrite list_lookup_alter_eq, IH.
        destruct (lookup_snoc_last l x) as [-> ->]. reflexivity.
      * rewrite list_lookup_alter_ne by congruence.
        rewrite IH, lookup_snoc_other by exact Hk. reflexivity.
Qed.

Lemma foldl_setEvaluation (items : list json) (moves : list Move) :
  match foldl setEvaluation (Ok moves) (indexed items) with
  | Ok r =>
      List.length r = List.length moves /\
      (forall k, r !! k
                 = match items !! k with
                   | Some e => withEvaluation (Json.member (Some e) "eval") <$> moves !! k
                   | None => moves !! k
                   end) /\
      (forall k, k < List.length moves -> items !! k <> Some JNull)
  | Throw _ => exists k, k < List.length moves /\ items !! k = Some JNull
  end.
Proof.
  induction items as [|x l IH] using rev_ind.
  - simpl. repeat split. intros k _. rewrite lookup_nil. discriminate.
  - rewrite indexed_snoc, foldl_app. simpl.
    destruct (foldl setEvaluation (Ok moves) (indexed l)) as [r|e].
    + destruct IH as (Hlen & Hlook & Hnull).
      change (setEvaluation (Ok r) (List.length l, x))
        with (match r !! List.length l with
              | Some _ => value ← get (Some x) "eval";
                          mret (alter (withEvaluation value) (List.length l) r)
              | None => Ok r
              end).
      destruct (r !! List.length l) as [m|] eqn:Hm.
      * assert (Hin : List.length l < List.length moves).
        { rewrite <- Hlen. apply lookup_lt_is_Some. eauto. }
        assert (Hcase : x = JNull \/ x <> JNull) by (destruct x; (now left) || (now right)).
        destruct Hcase as [->|Hx].
        -- simpl. exists (List.length l). split; [exact Hin|]. apply lookup_snoc_last.
        -- rewrite (get_Some x "eval" Hx). simpl. repeat split.
           ++ rewrite length_alter. exact Hlen.
           ++ intros k. destruct (decide (k = List.length l)) as [->|Hk].
              ** rewrite list_lookup_alter_eq, Hlook.
                 destruct (lookup_snoc_last l x) as [-> ->]. reflexivity.
              ** rewrite list_lookup_alter_ne by congruence.
                 rewrite Hlook, lookup_snoc_other by exact Hk. reflexivity.
           ++ intros k Hk. destruct (decide (k = List.length l)) as [->|Hne].
              ** destruct (lookup_snoc_last l x) as [-> _]. congruence.
              ** rewrite lookup_snoc_other by exact Hne. apply Hnull, Hk.
      * assert (Hout : ~ List.length l < List.length moves).
        { rewrite <- Hlen. intros Hlt. apply lookup_lt_is_Some in Hlt.
          rewrite Hm in Hlt. destruct Hlt; discriminate. }
        simpl. repeat split.
        -- exact Hlen.
        -- intros k. destruct (decide (k = List.length l)) as [->|Hk].
           ++ rewrite Hlook. destruct (lookup_snoc_last l x) as [-> ->].
              rewrite (lookup_ge_None_2 moves) by lia. reflexivity.
           ++ rewrite Hlook, lookup_snoc_other by exact Hk. reflexivity.
        -- intros k Hk. rewrite lookup_snoc_other by lia. apply Hnull, Hk.
    + destruct IH as (k & Hk & Hnull). unfold setEvaluation. simpl.
      exists k. split; [exact Hk|].
      rewrite lookup_app_l; [exact Hnull|]. apply lookup_lt_is_Some. eauto.
Qed.

End AppsScriptFacts.

Section ExtractMoves.

Import AppsScript.
Local Open Scope list_scope.

Variable h : Host.

Lemma extractMoves_stages (data : json) :
  data <> JNull ->
  extractMoves h (Some data)
  = if truthyButNot isString (Json.member (gameOf (Some data)) "moves") then Throw typeError
    else if truthyButNot isArray (Json.member (gameOf (Some data)) "clocks") then Throw typeError
    else if truthyButNot isArray (Json.member (Json.member (Some data) "dom") "evaluations")
    then Throw typeError
    else foldl setEvaluation
           (Ok (foldl (setClock h) (imap newMove (tokensOf (Some data)))
                      (indexed (clocksOf (Some data)))))
           (indexed (evaluationsOf (Some data))).
Proof.
  intros Hdata. unfold extractMoves, tokensOf, clocksOf, evaluationsOf, gameOf.
  rewrite !(get_Some data _ Hdata). cbn [mbind result_bind].
  generalize (Json.member (Json.member (Some data) "dom") "evaluations").
  generalize (Json.member (Json.member (Json.member (Some data) "pageInitData") "game") "clocks").
  generalize (Json.member (Json.member (Json.member (Some data) "pageInitData") "game") "moves").
  intros moveString clocks evaluations. unfold truthyButNot.
  destruct moveString as [[| [] | z | s | |]|]; simpl; try reflexivity;
    try (destruct (z =? 0)%Z; simpl; try reflexivity);
    try (destruct s; simpl; try reflexivity);
    (destruct clocks as [[| [] | z' | s' | |]|]; simpl; try reflexivity;
     try (destruct (z' =? 0)%Z; simpl; try reflexivity);
     try (destruct s'; simpl; try reflexivity));
    (destruct evaluations as [[| [] | z'' | s'' | |]|]; simpl; try reflexivity;
     try (destruct (z'' =? 0)%Z; simpl; try reflexivity);
     try (destruct s''; simpl; reflexivity)).
Qed.

(** X17. [extractMoves] returns one move per token of the move string, numbered in
    pairs and coloured by parity; the k-th clock and the k-th evaluation go
    to the k-th move, and clocks and evaluations beyond the last move are
    dropped. *)
Theorem extracted_moves_follow_the_game (data : option json) (moves : list Move) :
  extractMoves h data = Ok moves ->
  List.length moves = List.length (tokensOf data) /\
  forall k m, moves !! k = Some m ->
    tokensOf data !! k = Some (move m) /\
    san m = move m /\
    moveNumber m = k / 2 + 1 /\
    color m = (if Nat.eqb (k mod 2) 0 then "white" else "black")%string /\
    clockSeconds m = clocksOf data !! k /\
    clockTime m = (fun clock => formatTime (toNumber h clock)) <$> clocksOf data !! k /\
    evaluation m = evaluationsOf data !! k ≫= (fun e => Json.member (Some e) "eval").
Proof.
  intros Hrun.
  assert (Hdata : exists d, data = Some d /\ d <> JNull).
  { destruct data as [[]|]; try discriminate Hrun; eexists; split; try reflexivity; discriminate. }
  destruct Hdata as (d & -> & Hd). rewrite (extractMoves_stages d Hd) in Hrun.
  destruct (truthyButNot isString _); [discriminate|].
  destruct (truthyButNot isArray _); [discriminate|].
  destruct (truthyButNot isArray _); [discriminate|].
  pose proof (foldl_setEvaluation (evaluationsOf (Some d))
                (foldl (setClock h) (imap newMove (tokensOf (Some d)))
                       (indexed (clocksOf (Some d))))) as Hevals.
  rewrite Hrun in Hevals. destruct Hevals as (Hlen & Hlook & _).
  destruct (foldl_setClock h (clocksOf (Some d)) (imap newMove (tokensOf (Some d))))
    as [Hlen' Hlook'].
  split.
  - rewrite Hlen, Hlen', length_imap. reflexivity.
  - intros k m Hm. rewrite Hlook in Hm.
    assert (Hclock : exists m0, foldl (setClock h) (imap newMove (tokensOf (Some d)))
                                      (indexed (clocksOf (Some d))) !! k = Some m0 /\
                                move m = move m0 /\ san m = san m0 /\
                                moveNumber m = moveNumber m0 /\ color m = color m0 /\
                                clockSeconds m = clockSeconds m0 /\
                                clockTime m = clockTime m0 /\
                                evaluation m
                                = match evaluationsOf (Some d) !! k with
                                  | Some e => Json.member (Some e) "eval"
                                  | None => evaluation m0
                                  end).
    { destruct (evaluationsOf (Some d) !! k) as [e|].
      - destruct (foldl _ _ _ !! k) as [m0|]; [|discriminate Hm].
        simpl in Hm. inversion Hm; subst m. exists m0. repeat split.
      - exists m. repeat split. exact Hm. }
    destruct Hclock as (m0 & Hm0 & -> & -> & -> & -> & -> & -> & Heval).
    rewrite Hlook', list_lookup_imap in Hm0.
    destruct (tokensOf (Some d) !! k) as [token|]; simpl in Hm0.
    + assert (Hnew : evaluation (newMove k token) = None) by reflexivity.
      destruct (clocksOf (Some d) !! k) as [clock|]; simpl in Hm0;
        inversion Hm0; subst m0; simpl; repeat split;
        rewrite Heval; destruct (evaluationsOf (Some d) !! k); reflexivity.
    + destruct (clocksOf (Some d) !! k); discriminate Hm0.
Qed.


End ExtractMoves.

Lemma extracted_moves_follow_the_game_witness :
  exists moves,
    AppsScript.extractMoves (Fixture3.host 200 EmptyString (Ok JNull)) (Some Fixture3.gameData)
    = Ok moves /\
    List.length moves = List.length (tokensOf (Some Fixture3.gameData)).
Proof.
  assert (Hrun : exists moves,
             AppsScript.extractMoves (Fixture3.host 200 EmptyString (Ok JNull))
                                     (Some Fixture3.gameData) = Ok moves)
    by (vm_compute; eexists; reflexivity).
  destruct Hrun as [moves Hrun]. exists moves. split; [exact Hrun|].
  exact (proj1 (extracted_moves_follow_the_game _ _ _ Hrun)).
Defined.


(** [formatTime] *)




(** A negative number of seconds is floored for the minutes but keeps its
    sign in the seconds; what is not a number is written as such. *)
Example formatTime_of_minus_five_seconds :
  AppsScript.formatTime (Num (-5)) = "-1:-5" /\ AppsScript.formatTime NaN = "NaN:NaN".
Proof. split; reflexivity. Qed.

(** [extractBasicInfo], [extractOpening], [extractPlayerInfo] *)

(** X21. On data that is not null the three extractors return. The basic
    information is null exactly when the page data has no game, and its
    variant is never empty: it is the game's variant key, or standard. *)
Theorem basic_info_needs_a_game_and_defaults_the_variant (data : json) :
  data <> JNull ->
  (exists info, AppsScript.extractBasicInfo (Some data) = Ok info /\
     (info = None <-> Json.truthy (gameOf (Some data)) = false) /\
     (forall i, info = Some i ->
        Json.truthy (AppsScript.variant i) = true /\
        (AppsScript.variant i = Some (JString "standard") \/
         AppsScript.variant i = Json.member (Json.member (gameOf (Some data)) "variant") "key"))) /\
  (exists opening, AppsScript.extractOpening (Some data) = Ok opening) /\
  (exists players, AppsScript.extractPlayerInfo (Some data) = Ok players).
Proof.
  intros Hdata. unfold AppsScript.extractBasicInfo, AppsScript.extractOpening,
    AppsScript.extractPlayerInfo, gameOf.
  rewrite (get_Some data "pageInitData" Hdata). cbn [mbind result_bind].
  repeat apply conj.
  - destruct (Json.truthy (Json.member (Some data) "pageInitData")) eqn:Hpage; cbn [negb].
    + destruct (Json.truthy (Json.member (Json.member (Some data) "pageInitData") "game"))
        eqn:Hgame; cbn [negb]; eexists; (split; [reflexivity|]); split.
      * split; discriminate.
      * intros i Hi. inversion Hi; subst i. cbn [AppsScript.variant].
        unfold Json.or_else.
        destruct (Json.truthy (Json.member (Json.member _ "variant") "key")) eqn:Hkey.
        -- split; [exact Hkey|now right].
        -- split; [reflexivity|now left].
      * split; reflexivity.
      * intros i Hi. discriminate Hi.
    + eexists. split; [reflexivity|]. split.
      * split; [intros _|reflexivity].
        rewrite (falsy_has_no_member _ "game" Hpage). reflexivity.
      * intros i Hi. discriminate Hi.
  - destruct (Json.truthy _); eexists; reflexivity.
  - destruct (Json.truthy _); eexists; reflexivity.
Qed.

Lemma basic_info_needs_a_game_and_defaults_the_variant_witness :
  exists info, AppsScript.extractBasicInfo (Some Fixture3.gameData) = Ok info /\
    (info = None <-> Json.truthy (gameOf (Some Fixture3.gameData)) = false).
Proof.
  destruct (basic_info_needs_a_game_and_defaults_the_variant Fixture3.gameData)
    as [(info & Hrun & Hnone & _) _]; [discriminate|].
  exists info. split; [exact Hrun|exact Hnone].
Defined.

Example client_returns_the_data_of_the_sample_envelope :
  AppsScript.fetchLichessGameWithExtensions
    (Fixture3.host 200 "{...}" (Ok Fixture3.envelope)) (Some (JString "abcd1234"))
  = Some Fixture3.gameData /\
  AppsScript.fetchLichessGameWithExtensions
    (Fixture3.host 500 "{...}" (Ok Fixture3.envelope)) (Some (JString "abcd1234"))
  = None /\
  AppsScript.fetchLichessGameWithExtensions
    (Fixture3.host 200 "{...}" (Ok (JObject [("success", JBool true)]))) (Some (JString "abcd1234"))
  = None.
Proof. repeat apply conj; vm_compute; reflexivity. Qed.

(** [extractExtensionSpecificData] *)

Section ExtensionSpecific.

Import AppsScript.
Local Open Scope list_scope.

Lemma foldl_recordTool (l : list (string * json)) (acc : ExtensionSpecific) :
  found (foldl recordTool acc l) = found acc || toolSeen l /\
  settings (foldl recordTool acc l) = settings acc /\
  enhancements (foldl recordTool acc l) = enhancements acc /\
  (tools (foldl recordTool acc l) = ∅ <-> tools acc = ∅ /\ toolSeen l = false).
Proof.
  revert acc. induction l as [|entry l IH]; intros acc; simpl.
  - rewrite orb_false_r. tauto.
  - destruct (IH (recordTool acc entry)) as (Hfound & Hsettings & Henh & Htools).
    rewrite Hfound, Hsettings, Henh, Htools. unfold recordTool.
    destruct (isToolKey (fst entry)); simpl.
    + rewrite orb_true_r. repeat apply conj; try reflexivity.
      * intros [Hins _]. exfalso. exact (insert_non_empty _ _ _ Hins).
      * intros [_ H]. discriminate H.
    + tauto.
Qed.

Lemma foldl_recordSetting (h : Host) (l : list (string * json)) (acc : ExtensionSpecific) :
  found (foldl (recordSetting h) acc l) = found acc || settingSeen l /\
  tools (foldl (recordSetting h) acc l) = tools acc /\
  enhancements (foldl (recordSetting h) acc l) = enhancements acc /\
  (settings (foldl (recordSetting h) acc l) = ∅ <-> settings acc = ∅ /\ settingSeen l = false).
Proof.
  revert acc. induction l as [|entry l IH]; intros acc; simpl.
  - rewrite orb_false_r. tauto.
  - destruct (IH (recordSetting h acc entry)) as (Hfound & Htools & Henh & Hsettings).
    rewrite Hfound, Htools, Henh, Hsettings. unfold recordSetting.
    destruct (isSettingKey (fst entry)); simpl.
    + rewrite orb_true_r. repeat apply conj; try reflexivity.
      * intros [Hins _]. exfalso. exact (insert_non_empty _ _ _ Hins).
      * intros [_ H]. discriminate H.
    + tauto.
Qed.

Lemma foldl_recordEnhancement (l : list (string * json)) (acc : ExtensionSpecific) :
  found (foldl recordEnhancement acc l) = found acc /\
  tools (foldl recordEnhancement acc l) = tools acc /\
  settings (foldl recordEnhancement acc l) = settings acc /\
  enhancements (foldl recordEnhancement acc l)
  = enhancements acc
    ++ List.map (fun entry => {| enhancement_type := fst entry; enhancement_data := snd entry |})
         (List.filter (fun entry => isEnhancementKey (fst entry)) l).
Proof.
  revert acc. induction l as [|entry l IH]; intros acc; simpl.
  - rewrite app_nil_r. tauto.
  - destruct (IH (recordEnhancement acc entry)) as (Hfound & Htools & Hsettings & Henh).
    rewrite Hfound, Htools, Hsettings, Henh. unfold recordEnhancement.
    destruct (isEnhancementKey (fst entry)); simpl.
    + rewrite <- app_assoc. tauto.
    + tauto.
Qed.

(** X22. The organizer reports an extension as found exactly when it has stored
    a tool or a setting; the enhanced elements of [data.dom], which it lists
    in the order of the object's keys, never set the flag. *)
Theorem found_counts_tools_and_settings_but_not_enhancements
  (h : Host) (data : option json) (r : ExtensionSpecific) :
  extractExtensionSpecificData h data = Ok r ->
  (found r = false <-> tools r = ∅ /\ settings r = ∅) /\
  (tools r = ∅ <-> toolSeen (visited (Json.member data "extensionData")) = false) /\
  (settings r = ∅ <-> settingSeen (visited (Json.member data "localStorage")) = false) /\
  enhancements r
  = List.map (fun entry => {| enhancement_type := fst entry; enhancement_data := snd entry |})
      (List.filter (fun entry => isEnhancementKey (fst entry))
                   (visited (Json.member data "dom"))).
Proof.
  unfold extractExtensionSpecificData. intros Hrun.
  destruct (get data "extensionData") as [fromWindow|] eqn:Hget; [|discriminate Hrun].
  apply get_Ok in Hget as (-> & _). cbn [mbind result_bind mret result_ret] in Hrun.
  inversion Hrun as [Hr]. clear Hrun.
  set (start := {| found := false; tools := ∅; settings := ∅; enhancements := [] |}).
  destruct (foldl_recordTool (visited (Json.member data "extensionData")) start)
    as (Hf1 & Hs1 & He1 & Ht1).
  destruct (foldl_recordSetting h (visited (Json.member data "localStorage"))
              (foldl recordTool start (visited (Json.member data "extensionData"))))
    as (Hf2 & Ht2 & He2 & Hs2).
  destruct (foldl_recordEnhancement (visited (Json.member data "dom"))
              (foldl (recordSetting h)
                 (foldl recordTool start (visited (Json.member data "extensionData")))
                 (visited (Json.member data "localStorage"))))
    as (Hf3 & Ht3 & Hs3 & He3).
  fold start. rewrite Hf3, Ht3, Hs3, He3, Hf2, Ht2, He2, Hs2, Hf1, Hs1, He1, Ht1.
  cbn [found tools settings enhancements start app].
  destruct (toolSeen _), (settingSeen _); simpl; intuition congruence.
Qed.

End ExtensionSpecific.

Lemma found_counts_tools_and_settings_but_not_enhancements_witness :
  exists r,
    AppsScript.extractExtensionSpecificData (Fixture3.host 200 EmptyString (Ok JNull))
      (Some Fixture3.gameData) = Ok r /\
    (AppsScript.found r = false <-> AppsScript.tools r = ∅ /\ AppsScript.settings r = ∅).
Proof.
  assert (Hrun : exists r,
             AppsScript.extractExtensionSpecificData (Fixture3.host 200 EmptyString (Ok JNull))
               (Some Fixture3.gameData) = Ok r)
    by (eexists; reflexivity).
  destruct Hrun as [r Hrun]. exists r. split; [exact Hrun|].
  exact (proj1 (found_counts_tools_and_settings_but_not_enhancements _ _ _ Hrun)).
Defined.

(** X23. The keys under which the advanced handler's selector scan stores its
    matches all pass the organizer's enhancement test, and the five fixed
    keys of [data.dom] do not. *)
Theorem selector_scan_keys_are_the_organizer_enhancements
  (p : Page) (gameData : Advanced.GameData) (key : string) :
  Advanced.evaluate p = Ok gameData ->
  (is_Some (Advanced.bySelector (Advanced.dom gameData) !! key) ->
   AppsScript.isEnhancementKey key = true) /\
  (In key ["title"; "url"; "moves"; "players"; "evaluations"] ->
   AppsScript.isEnhancementKey key = false).
Proof.
  intros Heval. split.
  - intros [entries Hentries].
    pose proof (selector_scan_other p key) as Hother.
    rewrite <- (advanced_bySelector_scan p gameData Heval) in Hother.
    destruct (in_dec string_dec key
                (List.map Advanced.selectorKey Advanced.extensionSelectors)) as [Hin|Hout].
    + vm_compute in Hin.
      repeat (destruct Hin as [<-|Hin]; [vm_compute; reflexivity|]). contradiction.
    + rewrite (Hother Hout) in Hentries. discriminate.
  - intros Hin. simpl in Hin.
    repeat (destruct Hin as [<-|Hin]; [vm_compute; reflexivity|]). contradiction.
Qed.

Lemma selector_scan_keys_are_the_organizer_enhancements_witness :
  exists gameData,
    Advanced.evaluate Sample.page = Ok gameData /\
    is_Some (Advanced.bySelector (Advanced.dom gameData) !! "data-extension") /\
    AppsScript.isEnhancementKey "data-extension" = true.
Proof.
  destruct (Advanced.evaluate Sample.page) as [gameData|] eqn:Heval; [|discriminate Heval].
  exists gameData. split; [reflexivity|].
  assert (Hsome : is_Some (Advanced.bySelector (Advanced.dom gameData) !! "data-extension")).
  { revert Heval. vm_compute. intros [= <-]. eexists. reflexivity. }
  split; [exact Hsome|].
  exact (proj1 (selector_scan_keys_are_the_organizer_enhancements
                  Sample.page gameData "data-extension" Heval) Hsome).
Defined.

(** [writeBasicInfoToSheet] *)

(** X24. Writing the basic information of data that is not null throws exactly
    when the data has no game: [extractBasicInfo] then returns null and the
    writer reads a property of it before any cell is set. Otherwise nine
    cells are set, all in the row after the last one. *)
Theorem basic_info_of_a_page_without_game_cannot_be_written
  (data : json) (lastRow : nat) (timing : AppsScript.Timing) (opening : AppsScript.Opening) :
  data <> JNull ->
  match basicInfo ← AppsScript.extractBasicInfo (Some data);
        AppsScript.writeBasicInfoToSheet lastRow basicInfo timing opening with
  | Throw _ => Json.truthy (gameOf (Some data)) = false
  | Ok cells =>
      Json.truthy (gameOf (Some data)) = true /\
      List.map AppsScript.column cells = [1; 2; 3; 4; 5; 6; 7; 8; 9] /\
      Forall (fun cell => AppsScript.row cell = lastRow + 1) cells
  end.
Proof.
  intros Hdata. unfold AppsScript.extractBasicInfo, gameOf.
  rewrite (get_Some data "pageInitData" Hdata). cbn [mbind result_bind].
  destruct (Json.truthy (Json.member (Some data) "pageInitData")) eqn:Hpage; cbn [negb].
  - destruct (Json.truthy (Json.member (Json.member (Some data) "pageInitData") "game"))
      eqn:Hgame; cbn [negb mret result_ret mbind result_bind AppsScript.writeBasicInfoToSheet].
    + repeat apply conj; [reflexivity|reflexivity|].
      repeat (apply List.Forall_cons; [reflexivity|]). apply List.Forall_nil.
    + reflexivity.
  - cbn [mret result_ret mbind result_bind AppsScript.writeBasicInfoToSheet].
    rewrite (falsy_has_no_member _ "game" Hpage). reflexivity.
Qed.

Lemma basic_info_of_a_page_without_game_cannot_be_written_witness :
  throws (basicInfo ← AppsScript.extractBasicInfo (Some (JObject [("pageInitData", JNull)]));
          AppsScript.writeBasicInfoToSheet 7 basicInfo Fixture3.noTiming Fixture3.noOpening)
  = true.
Proof.
  pose proof (basic_info_of_a_page_without_game_cannot_be_written
                (JObject [("pageInitData", JNull)]) 7 Fixture3.noTiming Fixture3.noOpening
                ltac:(discriminate)) as Hrun.
  destruct (_ ← AppsScript.extractBasicInfo _; _) as [cells|e]; [|reflexivity].
  destruct Hrun as [Hgame _]. discriminate Hgame.
Defined.
